(** * Stock-Tracker-Bot: the tracking engine, embedded and verified

    A shallow embedding of [product_tracker.py], [database.py] and
    [store_scrapers.py].  Python values are modelled as follows.

    - [str] is [string]; a character is one of the 256 code points that
      [ascii] offers, read as the code points U+0000..U+00FF.
    - [float] is [pyfloat]: an exact rational, an infinity or a NaN.  A
      decimal numeral denotes its exact value; rounding to a binary double
      and the double's finite range are not modelled.
    - [dict] is a [gmap string value]; indexing a missing key raises
      [KeyError], [dict.get] falls back to its default.
    - exceptions are the constructors of [exn]; a computation that blocks
      forever on [Queue.get] has the outcome [Hang]. *)

From Stdlib Require Import ZArith QArith Qreduction Ascii String List Lia Bool.
From Stdlib Require Import Decimal DecimalString DecimalPos DecimalZ.
From stdpp Require Import base option list gmap strings.

Local Open Scope string_scope.
Local Open Scope Z_scope.

(** ** Python built-ins used by the tracker *)

Module Py.

(** [str.isspace] on one code point below U+0100. *)
Definition isspace (c : ascii) : bool :=
  let n := N_of_ascii c in
  ((9 <=? n) && (n <=? 13) || (28 <=? n) && (n <=? 32)
   || (n =? 133) || (n =? 160))%N.

(** [str.lower] on one code point below U+0100: A-Z and the Latin-1
    capitals (all of U+00C0..U+00DE but the multiplication sign). *)
Definition lower_char (c : ascii) : ascii :=
  let n := N_of_ascii c in
  if ((65 <=? n) && (n <=? 90)
      || (192 <=? n) && (n <=? 222) && negb (n =? 215))%N
  then ascii_of_N (n + 32) else c.

Fixpoint lower (s : string) : string :=
  match s with
  | EmptyString => EmptyString
  | String c s' => String (lower_char c) (lower s')
  end.

Fixpoint lstrip (s : string) : string :=
  match s with
  | EmptyString => EmptyString
  | String c s' => if isspace c then lstrip s' else s
  end.

Fixpoint rstrip (s : string) : string :=
  match s with
  | EmptyString => EmptyString
  | String c s' =>
      match rstrip s' with
      | EmptyString => if isspace c then EmptyString else String c EmptyString
      | r => String c r
      end
  end.

(** [s.strip()] *)
Definition strip (s : string) : string := rstrip (lstrip s).

Fixpoint startswith (p s : string) : bool :=
  match p, s with
  | EmptyString, _ => true
  | String a p', String b s' => if Ascii.eqb a b then startswith p' s' else false
  | String _ _, EmptyString => false
  end.

(** Replacement of a non-empty [old]: scan left to right; at a match emit
    [new] and skip the rest of the match ([skip] counts what is left of
    it), so that occurrences do not overlap. *)
Fixpoint replace_from (old new : string) (skip : nat) (s : string) : string :=
  match s with
  | EmptyString => EmptyString
  | String c s' =>
      match skip with
      | S k => replace_from old new k s'
      | O =>
          if startswith old s
          then new ++ replace_from old new (Nat.pred (String.length old)) s'
          else String c (replace_from old new O s')
      end
  end.

Fixpoint intersperse (new s : string) : string :=
  match s with
  | EmptyString => new
  | String c s' => new ++ String c (intersperse new s')
  end.

(** [s.replace(old, new)] *)
Definition replace (old new s : string) : string :=
  match old with
  | EmptyString => intersperse new s
  | _ => replace_from old new O s
  end.

(** *** [float] *)

Inductive pyfloat :=
  | Fin (q : Q)
  | Inf (negative : bool)
  | NaN.

Definition zero : pyfloat := Fin 0.

(** [x < y] and [x <= y] on floats; every comparison with a NaN is false. *)
Definition lt (x y : pyfloat) : bool :=
  match x, y with
  | NaN, _ | _, NaN => false
  | Fin a, Fin b => negb (Qle_bool b a)
  | Fin _, Inf neg => negb neg
  | Inf neg, Fin _ => neg
  | Inf a, Inf b => a && negb b
  end.

Definition le (x y : pyfloat) : bool :=
  match x, y with
  | NaN, _ | _, NaN => false
  | Fin a, Fin b => Qle_bool a b
  | Fin _, Inf neg => negb neg
  | Inf neg, Fin _ => neg
  | Inf a, Inf b => a || negb b
  end.

Definition digit_of (c : ascii) : option Z :=
  let n := N_of_ascii c in
  if ((48 <=? n) && (n <=? 57))%N then Some (Z.of_N n - 48) else None.

(** [digitpart ::= digit (["_"] digit)*], read after its first digit:
    [acc] is the value so far and [cnt] the number of digits read.  An
    underscore that is not followed by a digit is left unread. *)
Fixpoint digits_more (acc : Z) (cnt : nat) (s : list ascii) : Z * nat * list ascii :=
  match s with
  | c :: s' =>
      match digit_of c with
      | Some d => digits_more (10 * acc + d) (S cnt) s'
      | None =>
          if Ascii.eqb c "_" then
            match s' with
            | c' :: s'' =>
                match digit_of c' with
                | Some d => digits_more (10 * acc + d) (S cnt) s''
                | None => (acc, cnt, s)
                end
            | [] => (acc, cnt, s)
            end
          else (acc, cnt, s)
      end
  | [] => (acc, cnt, s)
  end.

Definition digitpart (acc : Z) (s : list ascii) : option (Z * nat * list ascii) :=
  match s with
  | c :: s' =>
      match digit_of c with
      | Some d => Some (digits_more (10 * acc + d) 1 s')
      | None => None
      end
  | [] => None
  end.

(** [exponent ::= ("e" | "E") [sign] digitpart]; no exponent reads as 0. *)
Definition exponent (s : list ascii) : option (Z * list ascii) :=
  match s with
  | c :: s' =>
      if Ascii.eqb (lower_char c) "e" then
        let '(neg, s1) :=
          match s' with
          | c1 :: s1 =>
              if Ascii.eqb c1 "-" then (true, s1)
              else if Ascii.eqb c1 "+" then (false, s1) else (false, s')
          | [] => (false, s')
          end in
        match digitpart 0 s1 with
        | Some (e, _, rest) => Some (if neg : bool then - e else e, rest)
        | None => None
        end
      else Some (0, s)
  | [] => Some (0, s)
  end.

(** The rational [m * 10^e]. *)
Definition scale10 (m e : Z) : Q :=
  if 0 <=? e then inject_Z (m * 10 ^ e)
  else Qred (Qmake m (Z.to_pos (10 ^ (- e)))).

(** [number ::= [digitpart] "." digitpart | digitpart ["."]], then the
    exponent, then the end of the text. *)
Definition floatnumber (s : list ascii) : option Q :=
  let finish (m : Z) (fracdigits : nat) (rest : list ascii) : option Q :=
    match exponent rest with
    | Some (e, []) => Some (scale10 m (e - Z.of_nat fracdigits))
    | _ => None
    end in
  match digitpart 0 s with
  | Some (i, _, rest) =>
      match rest with
      | c :: rest' =>
          if Ascii.eqb c "." then
            match digitpart i rest' with
            | Some (m, k, rest'') => finish m k rest''
            | None => finish i O rest'
            end
          else finish i O rest
      | [] => finish i O rest
      end
  | None =>
      match s with
      | c :: rest' =>
          if Ascii.eqb c "." then
            match digitpart 0 rest' with
            | Some (m, k, rest'') => finish m k rest''
            | None => None
            end
          else None
      | [] => None
      end
  end.

Definition qopp_float (neg : bool) (q : Q) : pyfloat :=
  Fin (if neg then Qopp q else q).

(** [float(s)] for a [str] argument: [None] stands for [ValueError]. *)
Definition float (s : string) : option pyfloat :=
  let body := list_ascii_of_string (strip s) in
  let '(neg, rest) :=
    match body with
    | c :: rest =>
        if Ascii.eqb c "-" then (true, rest)
        else if Ascii.eqb c "+" then (false, rest) else (false, body)
    | [] => (false, body)
    end in
  let word := lower (string_of_list_ascii rest) in
  if String.eqb word "inf" || String.eqb word "infinity" then Some (Inf neg)
  else if String.eqb word "nan" then Some NaN
  else match floatnumber rest with
       | Some q => Some (qopp_float neg q)
       | None => None
       end.

End Py.

(** ** Values, exceptions and outcomes *)

(** The exception classes the tracker meets.  [TimeoutException] and
    [NoSuchElementException] are subclasses of [WebDriverException]; all of
    them are subclasses of [Exception]. *)
Inductive exn :=
  | WebDriverException
  | TimeoutException
  | NoSuchElementException
  | ValueError (msg : string)
  | KeyError (key : string)
  | TypeError
  | ZeroDivisionError
  | AttributeError (name : string).

Definition is_WebDriverException (e : exn) : bool :=
  match e with
  | WebDriverException | TimeoutException | NoSuchElementException => true
  | _ => false
  end.

Definition is_TimeoutException (e : exn) : bool :=
  match e with TimeoutException => true | _ => false end.

(** What running a piece of Python yields: a value, an exception, or no
    answer at all ([Queue.get] on a queue that nobody will fill). *)
Inductive outcome (A : Type) :=
  | Ret (a : A)
  | Raise (e : exn)
  | Hang.
Arguments Ret {A} a.
Arguments Raise {A} e.
Arguments Hang {A}.

(** The values stored in the dicts the tracker passes around. *)
Inductive value :=
  | VNone
  | VBool (b : bool)
  | VInt (z : Z)
  | VFloat (f : Py.pyfloat)
  | VStr (s : string)
  | VList (l : list string)
  | VTime (t : Z).

(** Python truthiness ([if v:], [not v], [and]). *)
Definition truthy (v : value) : bool :=
  match v with
  | VNone => false
  | VBool b => b
  | VInt z => negb (z =? 0)
  | VFloat (Py.Fin q) => negb (Qeq_bool q 0)
  | VFloat _ => true
  | VStr s => negb (String.eqb s "")
  | VList l => match l with [] => false | _ => true end
  | VTime _ => true
  end.

(** A number as a float, for the mixed comparisons of Python.  The values
    the tracker compares and formats are the prices of rows and scrapes;
    the lexicographic order that Python gives to two strings or two lists
    is not modelled: anything but a number is refused. *)
Definition number (v : value) : exn + Py.pyfloat :=
  match v with
  | VFloat f => inr f
  | VInt z => inr (Py.Fin (inject_Z z))
  | VBool b => inr (Py.Fin (if b then 1 else 0)%Q)
  | _ => inl TypeError
  end.

(** [d[k]] *)
Definition getitem (d : gmap string value) (k : string) : exn + value :=
  match d !! k with
  | Some v => inr v
  | None => inl (KeyError k)
  end.

(** [d.get(k, default)] *)
Definition dict_get (d : gmap string value) (k : string) (default : value) : value :=
  match d !! k with
  | Some v => v
  | None => default
  end.

(** ** The driver pool ([class DriverPool]) *)

Module DriverPool.

(** A browser session, named by its creation index. *)
Definition driver := nat.

Record t := {
  max_drivers : Z;
  drivers : list driver;      (* the [Queue]; its head leaves first *)
  active_drivers : Z;
  (* what the calls did to the browser processes and to the gauge *)
  launched : nat;             (* sessions created so far *)
  quitted : list driver;      (* sessions on which [quit()] was called *)
  ACTIVE_DRIVERS : Z          (* the module's gauge, touched by [cleanup] *)
}.

(** [DriverPool(max_drivers)]; the default capacity is 3. *)
Definition init (max : Z) : t :=
  {| max_drivers := max; drivers := []; active_drivers := 0;
     launched := 0; quitted := []; ACTIVE_DRIVERS := 0 |}.

Definition default : t := init 3.

Definition set_drivers (q : list driver) (p : t) : t :=
  {| max_drivers := max_drivers p; drivers := q;
     active_drivers := active_drivers p; launched := launched p;
     quitted := quitted p; ACTIVE_DRIVERS := ACTIVE_DRIVERS p |}.

(** [Edge(options=options)] returned: one more session exists. *)
Definition launch (p : t) : t :=
  {| max_drivers := max_drivers p; drivers := drivers p;
     active_drivers := active_drivers p; launched := S (launched p);
     quitted := quitted p; ACTIVE_DRIVERS := ACTIVE_DRIVERS p |}.

(** [self.active_drivers += 1] *)
Definition count_up (p : t) : t :=
  {| max_drivers := max_drivers p; drivers := drivers p;
     active_drivers := active_drivers p + 1; launched := launched p;
     quitted := quitted p; ACTIVE_DRIVERS := ACTIVE_DRIVERS p |}.

(** [get_driver], run without interruption.  [edge] is what launching the
    browser does: [None] when [Edge(options)] returns a session. *)
Definition get_driver (edge : option exn) (p : t) : outcome driver * t :=
  match drivers p with
  | d :: q => (Ret d, set_drivers q p)
  | [] =>
      if active_drivers p <? max_drivers p then
        match edge with
        | None => (Ret (launched p), count_up (launch p))
        | Some e => (Raise e, p)
        end
      else (Hang, p)
  end.

(** [return_driver(driver)]: [Queue.put], whatever the driver. *)
Definition return_driver (d : driver) (p : t) : t :=
  set_drivers (drivers p ++ [d]) p.

(** [cleanup]: one round of the [while] loop per queued session. *)
Fixpoint cleanup_loop (q : list driver) (active : Z) (quits : list driver) (gauge : Z)
  : Z * list driver * Z :=
  match q with
  | [] => (active, quits, gauge)
  | d :: q' => cleanup_loop q' (active - 1) (quits ++ [d]) (gauge - 1)
  end.

Definition cleanup (p : t) : t :=
  let '(active, quits, gauge) :=
    cleanup_loop (drivers p) (active_drivers p) (quitted p) (ACTIVE_DRIVERS p) in
  {| max_drivers := max_drivers p; drivers := [];
     active_drivers := active; launched := launched p;
     quitted := quits; ACTIVE_DRIVERS := gauge |}.

End DriverPool.

(** *** The pool under calls that run one at a time

    The states of the pool when every call runs to its end before the next
    one starts and callers give back only what they hold: [reachable max p h]
    says that the pool can be [p] while the sessions [h] are handed out. *)

Module Serial.

Import DriverPool.

Inductive reachable (max : Z) : DriverPool.t -> list driver -> Prop :=
  | reach_init : reachable max (init max) []
  | reach_get edge p h d p' :
      reachable max p h ->
      get_driver edge p = (Ret d, p') ->
      reachable max p' (d :: h)
  | reach_return p h1 d h2 :
      reachable max p (h1 ++ d :: h2) ->
      reachable max (return_driver d p) (h1 ++ h2)
  | reach_cleanup p h :
      reachable max p h ->
      reachable max (cleanup p) h.

End Serial.

(** *** [get_driver] under threads

    The pool is shared by the tracking thread and the callers of the bot,
    and [get_driver] takes no lock: a thread can be interrupted between any
    two of its lines.  A thread is at one of the lines of [get_driver], or
    outside of it holding the sessions it was given. *)

Module Interleaved.

Import DriverPool.

Inductive pc :=
  | Outside
  | Line42                (* line 41 saw a queued session; next [drivers.get()] *)
  | Line44                (* line 41 saw an empty queue; next the capacity test *)
  | Line45                (* the test passed; next [_create_driver()] *)
  | Line46 (d : driver)   (* the session exists; next [active_drivers += 1] *)
  | Line49.               (* the test failed; next the blocking [drivers.get()] *)

Record thread := {
  at_line : pc;
  held : list driver
}.

Record config := {
  shared : DriverPool.t;
  threads : list thread
}.

(** What a scheduled thread does next: the next line of [get_driver]
    (entering it when outside), or a [return_driver] of a held session. *)
Inductive action :=
  | Advance
  | Return (d : driver).

Fixpoint remove_first (d : driver) (l : list driver) : list driver :=
  match l with
  | [] => []
  | x :: l' => if Nat.eqb x d then l' else x :: remove_first d l'
  end.

(** One line of one thread; [None] when the thread cannot move (it waits
    on the empty queue, or would return what it does not hold). *)
Definition step_thread (a : action) (p : DriverPool.t) (th : thread)
  : option (DriverPool.t * thread) :=
  match a, at_line th with
  | Advance, Outside =>
      Some (p, {| at_line := match drivers p with [] => Line44 | _ => Line42 end;
                  held := held th |})
  | Advance, Line42 | Advance, Line49 =>
      match drivers p with
      | d :: q => Some (set_drivers q p, {| at_line := Outside; held := d :: held th |})
      | [] => None
      end
  | Advance, Line44 =>
      Some (p, {| at_line := if active_drivers p <? max_drivers p then Line45 else Line49;
                  held := held th |})
  | Advance, Line45 =>
      Some (launch p, {| at_line := Line46 (launched p); held := held th |})
  | Advance, Line46 d =>
      Some (count_up p, {| at_line := Outside; held := d :: held th |})
  | Return d, Outside =>
      if existsb (Nat.eqb d) (held th)
      then Some (return_driver d p, {| at_line := Outside; held := remove_first d (held th) |})
      else None
  | Return _, _ => None
  end.

(** Thread [i] is scheduled for one action. *)
Definition step (c : config) (ia : nat * action) : option config :=
  match threads c !! fst ia with
  | Some th =>
      match step_thread (snd ia) (shared c) th with
      | Some (p, th') => Some {| shared := p; threads := <[fst ia := th']> (threads c) |}
      | None => None
      end
  | None => None
  end.

Fixpoint run (schedule : list (nat * action)) (c : config) : option config :=
  match schedule with
  | [] => Some c
  | ia :: rest =>
      match step c ia with
      | Some c' => run rest c'
      | None => None
      end
  end.

(** [n] threads around a fresh pool. *)
Definition start (max : Z) (n : nat) : config :=
  {| shared := DriverPool.init max;
     threads := repeat {| at_line := Outside; held := [] |} n |}.

(** The sessions handed out and not given back. *)
Definition outstanding (c : config) : nat :=
  list_sum (List.map (fun th => length (held th)) (threads c)).

End Interleaved.

(** ** The store ([class Database]) *)

Module Database.

(** One row of [tracked_products]. *)
Record tracked_product := {
  id : Z;
  user_id : Z;
  url : string;
  size : string;
  last_price : Py.pyfloat;
  product_name : string;
  last_check : Z;
  created_at : Z
}.

(** One row of [price_history]. *)
Record price_history_row := {
  ph_id : Z;
  ph_product_id : Z;
  ph_price : Py.pyfloat;
  ph_checked_at : Z
}.

(** One row of [price_thresholds]. *)
Record price_threshold := {
  th_id : Z;
  th_product_id : Z;
  th_user_id : Z;
  th_threshold_price : Py.pyfloat;
  th_created_at : Z
}.

(** The tables the tracking engine reads and writes, rows in rowid order,
    with the AUTOINCREMENT counters of the two tables it inserts into. *)
Record t := {
  tracked_products : list tracked_product;
  price_history : list price_history_row;
  price_thresholds : list price_threshold;
  seq_tracked_products : Z;
  seq_price_history : Z
}.

Definition empty : t :=
  {| tracked_products := []; price_history := []; price_thresholds := [];
     seq_tracked_products := 0; seq_price_history := 0 |}.

(** [add_tracked_product(user_id, product_data)] at time [now]; returns
    [cursor.lastrowid]. *)
Definition add_tracked_product (user : Z) (purl psize : string) (price : Py.pyfloat)
    (name : string) (now : Z) (d : t) : Z * t :=
  let rowid := seq_tracked_products d + 1 in
  (rowid,
   {| tracked_products := tracked_products d ++
        [{| id := rowid; user_id := user; url := purl; size := psize;
            last_price := price; product_name := name;
            last_check := now; created_at := now |}];
      price_history := price_history d;
      price_thresholds := price_thresholds d;
      seq_tracked_products := rowid;
      seq_price_history := seq_price_history d |}).

(** The WHERE clause of [delete_product]: [id = ? AND user_id = ?]. *)
Definition delete_where (product user : Z) (r : tracked_product) : bool :=
  (id r =? product) && (user_id r =? user).

(** [delete_product(user_id, product_id)]: the DELETE, then
    [cursor.rowcount > 0]. *)
Definition delete_product (user product : Z) (d : t) : bool * t :=
  let rowcount := length (List.filter (delete_where product user) (tracked_products d)) in
  (Nat.ltb 0 rowcount,
   {| tracked_products :=
        List.filter (fun r => negb (delete_where product user r)) (tracked_products d);
      price_history := price_history d;
      price_thresholds := price_thresholds d;
      seq_tracked_products := seq_tracked_products d;
      seq_price_history := seq_price_history d |}).

(** The UPDATE of [update_product_price] on one row. *)
Definition set_price (product : Z) (new_price : Py.pyfloat) (now : Z)
    (r : tracked_product) : tracked_product :=
  if id r =? product then
    {| id := id r; user_id := user_id r; url := url r; size := size r;
       last_price := new_price; product_name := product_name r;
       last_check := now; created_at := created_at r |}
  else r.

(** [update_product_price(product_id, new_price)] at time [now]: the UPDATE,
    then the INSERT into [price_history]. *)
Definition update_product_price (product : Z) (new_price : Py.pyfloat) (now : Z) (d : t) : t :=
  let rowid := seq_price_history d + 1 in
  {| tracked_products := List.map (set_price product new_price now) (tracked_products d);
     price_history := price_history d ++
       [{| ph_id := rowid; ph_product_id := product;
           ph_price := new_price; ph_checked_at := now |}];
     price_thresholds := price_thresholds d;
     seq_tracked_products := seq_tracked_products d;
     seq_price_history := rowid |}.

(** [dict(row)] for a row of [tracked_products]. *)
Definition product_dict (r : tracked_product) : gmap string value :=
  <["id" := VInt (id r)]>
  (<["user_id" := VInt (user_id r)]>
  (<["url" := VStr (url r)]>
  (<["size" := VStr (size r)]>
  (<["last_price" := VFloat (last_price r)]>
  (<["product_name" := VStr (product_name r)]>
  (<["last_check" := VTime (last_check r)]>
  (<["created_at" := VTime (created_at r)]> ∅))))))).

(** [get_all_tracked_products()] *)
Definition get_all_tracked_products (d : t) : list (gmap string value) :=
  List.map product_dict (tracked_products d).

(** [get_user_products(user_id)], without its ORDER BY. *)
Definition get_user_products (user : Z) (d : t) : list tracked_product :=
  List.filter (fun r => user_id r =? user) (tracked_products d).

Definition threshold_dict (r : price_threshold) : gmap string value :=
  <["id" := VInt (th_id r)]>
  (<["product_id" := VInt (th_product_id r)]>
  (<["user_id" := VInt (th_user_id r)]>
  (<["threshold_price" := VFloat (th_threshold_price r)]>
  (<["created_at" := VTime (th_created_at r)]> ∅)))).

(** Modelled from the spec: [Database.get_product_thresholds] is called by
    [_check_product] and defined in no source file.  The spec gives it as
    [getProductThresholds(id) -> [PriceThreshold]]; here it selects the
    rows of [price_thresholds] (a table [initialize_db] creates) for the
    product, in rowid order. *)
Definition get_product_thresholds (product : Z) (d : t) : list (gmap string value) :=
  List.map threshold_dict
    (List.filter (fun r => th_product_id r =? product) (price_thresholds d)).

(** What PRIMARY KEY and AUTOINCREMENT keep of the two tables the engine
    inserts into: the ids of a table are distinct and none is above the
    counter of the table. *)
Definition well_formed (d : t) : Prop :=
  List.NoDup (List.map id (tracked_products d))
  /\ Forall (fun r => id r <= seq_tracked_products d) (tracked_products d)
  /\ List.NoDup (List.map ph_id (price_history d))
  /\ Forall (fun r => ph_id r <= seq_price_history d) (price_history d).

End Database.

(** ** The tracker ([class ProductTracker]) *)

Module ProductTracker.

Inductive level := INFO | WARNING | ERROR.

(** What a notification says; the text sent is rendered from these. *)
Inductive message :=
  | PriceDrop (product_name url : value) (old_price new_price : Py.pyfloat)
      (available_sizes : list string)
  | ThresholdReached (product_name url threshold_price current_price : value)
  | StockAvailable (product_name url : value).

(** What one visit of a page shows to the Selenium calls made on it. *)
Record page := {
  load : option exn;                (* [driver.get(url)]: [None] when it returns *)
  body_wait : option exn;           (* the wait for the [body] tag *)
  by_class : string -> exn + string;
                                    (* [find_element(By.CLASS_NAME, c).text] *)
  size_wait : option exn;           (* the wait for the size options *)
  scroll : exn + nat;               (* [_scroll_page]: how often the page grew *)
  by_css : string -> exn + list string
                                    (* [find_elements(By.CSS_SELECTOR, c)], as texts *)
}.

(** The world around the tracker: the page served at each visit of a url
    (visits are counted over the whole run), what launching the browser
    does, and whether a notification callback was given. *)
Record env := {
  web : string -> nat -> page;
  edge : option exn;
  notification_callback : bool
}.

Record state := {
  pool : DriverPool.t;
  db : Database.t;
  is_running : bool;
  clock : Z;                        (* [datetime.now()] *)
  visits : nat;                     (* [driver.get] calls so far *)
  log : list (level * string);
  slept : list Z;                   (* the [time.sleep] calls, in order *)
  sent : list (value * message);    (* notifications handed to the sink *)
  SCRAPE_COUNTER : nat;
  SCRAPE_ERROR_COUNTER : nat;
  PRICE_DROPS : nat
}.

Definition set_pool (p : DriverPool.t) (s : state) : state :=
  {| pool := p; db := db s; is_running := is_running s; clock := clock s;
     visits := visits s; log := log s; slept := slept s; sent := sent s;
     SCRAPE_COUNTER := SCRAPE_COUNTER s;
     SCRAPE_ERROR_COUNTER := SCRAPE_ERROR_COUNTER s; PRICE_DROPS := PRICE_DROPS s |}.

Definition set_db (d : Database.t) (s : state) : state :=
  {| pool := pool s; db := d; is_running := is_running s; clock := clock s;
     visits := visits s; log := log s; slept := slept s; sent := sent s;
     SCRAPE_COUNTER := SCRAPE_COUNTER s;
     SCRAPE_ERROR_COUNTER := SCRAPE_ERROR_COUNTER s; PRICE_DROPS := PRICE_DROPS s |}.

Definition set_is_running (b : bool) (s : state) : state :=
  {| pool := pool s; db := db s; is_running := b; clock := clock s;
     visits := visits s; log := log s; slept := slept s; sent := sent s;
     SCRAPE_COUNTER := SCRAPE_COUNTER s;
     SCRAPE_ERROR_COUNTER := SCRAPE_ERROR_COUNTER s; PRICE_DROPS := PRICE_DROPS s |}.

Definition add_visit (s : state) : state :=
  {| pool := pool s; db := db s; is_running := is_running s; clock := clock s;
     visits := S (visits s); log := log s; slept := slept s; sent := sent s;
     SCRAPE_COUNTER := SCRAPE_COUNTER s;
     SCRAPE_ERROR_COUNTER := SCRAPE_ERROR_COUNTER s; PRICE_DROPS := PRICE_DROPS s |}.

Definition add_log (l : level) (msg : string) (s : state) : state :=
  {| pool := pool s; db := db s; is_running := is_running s; clock := clock s;
     visits := visits s; log := log s ++ [(l, msg)]; slept := slept s; sent := sent s;
     SCRAPE_COUNTER := SCRAPE_COUNTER s;
     SCRAPE_ERROR_COUNTER := SCRAPE_ERROR_COUNTER s; PRICE_DROPS := PRICE_DROPS s |}.

Definition add_sleep (d : Z) (s : state) : state :=
  {| pool := pool s; db := db s; is_running := is_running s; clock := clock s + d;
     visits := visits s; log := log s; slept := slept s ++ [d]; sent := sent s;
     SCRAPE_COUNTER := SCRAPE_COUNTER s;
     SCRAPE_ERROR_COUNTER := SCRAPE_ERROR_COUNTER s; PRICE_DROPS := PRICE_DROPS s |}.

Definition add_sent (n : value * message) (s : state) : state :=
  {| pool := pool s; db := db s; is_running := is_running s; clock := clock s;
     visits := visits s; log := log s; slept := slept s; sent := sent s ++ [n];
     SCRAPE_COUNTER := SCRAPE_COUNTER s;
     SCRAPE_ERROR_COUNTER := SCRAPE_ERROR_COUNTER s; PRICE_DROPS := PRICE_DROPS s |}.

Definition add_counters (scrapes errors drops : nat) (s : state) : state :=
  {| pool := pool s; db := db s; is_running := is_running s; clock := clock s;
     visits := visits s; log := log s; slept := slept s; sent := sent s;
     SCRAPE_COUNTER := scrapes + SCRAPE_COUNTER s;
     SCRAPE_ERROR_COUNTER := errors + SCRAPE_ERROR_COUNTER s;
     PRICE_DROPS := drops + PRICE_DROPS s |}.

(** *** Running Python statements: state, exceptions, blocking *)

Definition M (A : Type) : Type := state -> outcome A * state.

Definition ret {A} (a : A) : M A := fun s => (Ret a, s).

Definition raise {A} (e : exn) : M A := fun s => (Raise e, s).

Definition bind {A B} (m : M A) (k : A -> M B) : M B := fun s =>
  match m s with
  | (Ret a, s') => k a s'
  | (Raise e, s') => (Raise e, s')
  | (Hang, s') => (Hang, s')
  end.

Notation "x <- m ;; k" := (bind m (fun x => k))
  (at level 90, m at level 89, right associativity).
Notation "m ;;; k" := (bind m (fun _ => k))
  (at level 90, right associativity).

(** An expression that yields a value or raises. *)
Definition lift {A} (r : exn + A) : M A :=
  match r with
  | inl e => raise e
  | inr a => ret a
  end.

(** A call made for its effect only, which may raise. *)
Definition check (r : option exn) : M unit :=
  match r with
  | Some e => raise e
  | None => ret tt
  end.

(** [try: m  except Exception as e: h e] *)
Definition try_except {A} (m : M A) (h : exn -> M A) : M A := fun s =>
  match m s with
  | (Raise e, s') => h e s'
  | r => r
  end.

(** [try: m  finally: f] *)
Definition try_finally {A} (m : M A) (f : M unit) : M A := fun s =>
  match m s with
  | (Ret a, s') =>
      match f s' with
      | (Ret _, s'') => (Ret a, s'')
      | (Raise e, s'') => (Raise e, s'')
      | (Hang, s'') => (Hang, s'')
      end
  | (Raise e, s') =>
      match f s' with
      | (Ret _, s'') => (Raise e, s'')
      | (Raise e', s'') => (Raise e', s'')
      | (Hang, s'') => (Hang, s'')
      end
  | (Hang, s') => (Hang, s')
  end.

Definition logm (l : level) (msg : string) : M unit :=
  fun s => (Ret tt, add_log l msg s).

(** [time.sleep(d)] *)
Definition sleep (d : Z) : M unit := fun s => (Ret tt, add_sleep d s).

(** [datetime.now()] *)
Definition now : M Z := fun s => (Ret (clock s), s).

(** [notification_callback(user_id, message)] *)
Definition send (user : value) (msg : message) : M unit :=
  fun s => (Ret tt, add_sent (user, msg) s).

(** The [retry] decorator of the [retry] package, with [jitter=0] and no
    [max_delay]: call [f]; when it raises one of the listed exceptions
    ([WebDriverException] and its subclasses here) and tries are left, log
    a warning, sleep [delay], multiply the delay by [backoff] and call
    again; the exception of the last try is re-raised.  [more] is the
    number of tries left after the coming one. *)
Fixpoint retry_internal {A} (f : M A) (more : nat) (delay backoff : Z) : M A := fun s =>
  match f s with
  | (Raise e, s1) =>
      if is_WebDriverException e then
        match more with
        | O => (Raise e, s1)
        | S k =>
            (logm WARNING "retrying" ;;; sleep delay ;;;
             retry_internal f k (delay * backoff) backoff) s1
        end
      else (Raise e, s1)
  | r => r
  end.

(** [@retry(WebDriverException, tries=3, delay=2, backoff=2)] *)
Definition retry {A} (f : M A) : M A := retry_internal f 2 2 2.

Section Scraping.

Variable E : env.

(** [self.driver_pool.get_driver()], with what it logs: [_create_driver]
    reports a session it created, and a failed launch is logged by both
    handlers of [_create_driver] and by the one of [get_driver], each of
    which re-raises. *)
Definition pool_get_driver : M DriverPool.driver := fun s =>
  match DriverPool.get_driver (edge E) (pool s) with
  | (Ret d, p) =>
      (Ret d,
       if Nat.ltb (DriverPool.launched (pool s)) (DriverPool.launched p)
       then add_log INFO "Successfully created new Edge driver" (set_pool p s)
       else set_pool p s)
  | (Raise e, p) =>
      (Raise e,
       add_log ERROR "Error getting driver"
         (add_log ERROR "Error in _create_driver"
            (add_log ERROR "Failed to create Edge driver" (set_pool p s))))
  | (Hang, p) => (Hang, set_pool p s)
  end.

(** [self.driver_pool.return_driver(driver)] *)
Definition pool_return_driver (d : DriverPool.driver) : M unit := fun s =>
  (Ret tt, set_pool (DriverPool.return_driver d (pool s)) s).

(** [driver.get(url)]: the next visit of the url.  Selenium refuses a url
    that is not a string with a [WebDriverException]. *)
Definition driver_get (url : value) : M page := fun s =>
  match url with
  | VStr u =>
      let pg := web E u (visits s) in
      match load pg with
      | None => (Ret pg, add_visit s)
      | Some e => (Raise e, add_visit s)
      end
  | _ => (Raise WebDriverException, s)
  end.

(** The shape shared by both scraping methods:
    [driver = None; try: driver = get_driver(); body
     except Exception as e: handler  finally: if driver: final]. *)
Definition with_driver {A} (body : DriverPool.driver -> M A) (handler : exn -> M A)
    (final : DriverPool.driver -> M unit) : M A := fun s =>
  match pool_get_driver s with
  | (Ret d, s1) => try_finally (try_except (body d) handler) (final d) s1
  | (Raise e, s1) => handler e s1
  | (Hang, s1) => (Hang, s1)
  end.

Fixpoint sleeps (n : nat) (d : Z) : M unit :=
  match n with
  | O => ret tt
  | S k => sleep d ;;; sleeps k d
  end.

(** [_scroll_page]: one round per growth of the page and a last one that
    sees the height unchanged, each sleeping a second. *)
Definition _scroll_page (pg : page) : M unit :=
  grew <- lift (scroll pg) ;; sleeps (S grew) 1.

Definition size_selectors : list string :=
  ["div.sp-itm:not(.so)"; "div.size-variant-wrapper:not(.disabled)";
   "div.variant-wrapper:not(.disabled)"].

(** The loop over the size selectors; [size_elements] is the variable of
    that name. *)
Fixpoint find_sizes (pg : page) (selectors : list string) (size_elements : list string)
  : M (list string) :=
  match selectors with
  | [] => ret size_elements
  | selector :: rest =>
      found <- lift (by_css pg selector) ;;
      match found with
      | [] => find_sizes pg rest found
      | _ => ret found
      end
  end.

Definition get_available_sizes_body (url : value) : M (list string) :=
  with_driver
    (fun _ =>
       pg <- driver_get url ;;
       loaded <- try_except (check (size_wait pg) ;;; ret true)
                   (fun e => if is_TimeoutException e then ret false else raise e) ;;
       if loaded : bool then
         _scroll_page pg ;;;
         size_elements <- find_sizes pg size_selectors [] ;;
         let sizes := List.map Py.strip size_elements in
         logm INFO "Found sizes" ;;;
         (fun s => (Ret tt, add_counters 1 0 0 s)) ;;;
         ret sizes
       else ret [])
    (fun _ =>
       (fun s => (Ret tt, add_counters 0 1 0 s)) ;;;
       logm ERROR "Error getting sizes from Trendyol" ;;;
       ret [])
    pool_return_driver.

(** [get_available_sizes(url)], with its decorator. *)
Definition get_available_sizes (url : value) : M (list string) :=
  retry (get_available_sizes_body url).

Definition name_selectors : list string := ["pr-new-br"; "product-name"; "title"].

(** The loop over the name selectors; [product_name] is the variable of
    that name ([None] before the first assignment). *)
Fixpoint find_name (pg : page) (selectors : list string) (product_name : option string)
  : option string :=
  match selectors with
  | [] => product_name
  | selector :: rest =>
      match by_class pg selector with
      | inr text =>
          let name := Py.strip text in
          if String.eqb name "" then find_name pg rest (Some name) else Some name
      | inl _ => find_name pg rest product_name
      end
  end.

Definition price_selectors : list string := ["prc-dsc"; "prc-slg"; "price-box"].

(** The text of a price element, as [_extract_price] turns it into a float. *)
Definition parse_price (text : string) : option Py.pyfloat :=
  Py.float (Py.strip (Py.replace "," "." (Py.replace "." "" (Py.replace "TL" ""
    (Py.strip text))))).

(** The loop of [_extract_price]: the first selector whose element exists
    and whose text parses returns; any exception moves on to the next. *)
Fixpoint first_price (pg : page) (selectors : list string) : option Py.pyfloat :=
  match selectors with
  | [] => None
  | selector :: rest =>
      match by_class pg selector with
      | inr text =>
          match parse_price text with
          | Some price => Some price
          | None => first_price pg rest
          end
      | inl _ => first_price pg rest
      end
  end.

(** [_extract_price(driver)]: the [ValueError] raised after the loop is
    caught by the outer [except], which logs it and returns [0.0]. *)
Definition _extract_price (pg : page) : M Py.pyfloat :=
  try_except
    (match first_price pg price_selectors with
     | Some price => ret price
     | None => raise (ValueError "No valid price found")
     end)
    (fun _ => logm ERROR "Error extracting price" ;;; ret Py.zero).

Definition make_details (name : string) (price : Py.pyfloat) (sizes : list string)
    (checked : Z) : gmap string value :=
  <["name" := VStr name]>
  (<["price" := VFloat price]>
  (<["available_sizes" := VList sizes]>
  (<["last_checked" := VTime checked]> ∅))).

Definition get_product_details_body (url : value) : M (option (gmap string value)) :=
  logm INFO "Getting product details for URL" ;;;
  if negb (truthy url) then
    logm ERROR "Empty URL provided" ;;; ret None
  else
    with_driver
      (fun _ =>
         logm INFO "Loading URL in WebDriver" ;;;
         pg <- driver_get url ;;
         check (body_wait pg) ;;;
         match find_name pg name_selectors None with
         | Some (String c n) =>
             let product_name := String c n in
             price <- _extract_price pg ;;
             if Py.le price Py.zero then
               logm ERROR "Could not find valid price" ;;; ret None
             else
               sizes <- get_available_sizes url ;;
               checked <- now ;;
               let details := make_details product_name price sizes checked in
               logm INFO "Successfully got product details" ;;;
               ret (Some details)
         | _ => logm ERROR "Could not find product name" ;;; ret None
         end)
      (fun _ => logm ERROR "Error in get_product_details" ;;; ret None)
      pool_return_driver.

(** [get_product_details(url)], with its decorator. *)
Definition get_product_details (url : value) : M (option (gmap string value)) :=
  retry (get_product_details_body url).

(** [_notify_price_drop]: without a callback nothing happens; with one the
    message is formatted (the prices as numbers, the discount as a share
    of the old price, the sizes joined) and handed to the callback. *)
Definition _notify_price_drop (user_id product_name url old_price new_price
    available_sizes : value) : M unit :=
  if notification_callback E then
    old <- lift (number old_price) ;;
    new <- lift (number new_price) ;;
    match old, available_sizes with
    | Py.Fin q, VList sizes =>
        if Qeq_bool q 0 then raise ZeroDivisionError
        else send user_id (PriceDrop product_name url old new sizes)
    | _, VList sizes => send user_id (PriceDrop product_name url old new sizes)
    | _, _ => raise TypeError
    end
  else ret tt.

(** Modelled from the spec: [_notify_threshold_reached] is called by
    [_check_product] and defined in no source file.  The spec has the
    engine "emit a threshold-reached notification" to the sink
    [notify(userId, message)]; here it hands one to the sink. *)
Definition _notify_threshold_reached (user_id product_name url threshold_price
    current_price : value) : M unit :=
  send user_id (ThresholdReached product_name url threshold_price current_price).

(** Modelled from the spec: [_notify_stock_available] is called by
    [_check_product] and defined in no source file.  The spec has the
    engine "emit a restock notification"; here it hands one to the sink. *)
Definition _notify_stock_available (user_id product_name url : value) : M unit :=
  send user_id (StockAvailable product_name url).

(** [self.db.get_product_thresholds(product_id)] *)
Definition db_get_product_thresholds (product_id : value) : M (list (gmap string value)) :=
  fun s =>
    match product_id with
    | VInt z => (Ret (Database.get_product_thresholds z (db s)), s)
    | _ => (Ret [], s)
    end.

(** [self.db.update_product_price(product_id, new_price)]: the columns are
    INTEGER and REAL, and the rows of this model hold nothing else. *)
Definition db_update_product_price (product_id new_price : value) : M unit :=
  price <- lift (number new_price) ;;
  match product_id with
  | VInt z => fun s =>
      (Ret tt, set_db (Database.update_product_price z price (clock s) (db s)) s)
  | _ => raise TypeError
  end.

(** [x <= y] and [x < y] on two values. *)
Definition value_le (x y : value) : M bool :=
  a <- lift (number x) ;; b <- lift (number y) ;; ret (Py.le a b).

Definition value_lt (x y : value) : M bool :=
  a <- lift (number x) ;; b <- lift (number y) ;; ret (Py.lt a b).

Fixpoint substring (needle hay : string) : bool :=
  Py.startswith needle hay ||
  match hay with
  | EmptyString => false
  | String _ hay' => substring needle hay'
  end.

(** [x in container] *)
Definition value_in (x container : value) : M bool :=
  match container, x with
  | VList l, VStr a => ret (existsb (String.eqb a) l)
  | VList l, _ => ret false
  | VStr hay, VStr needle => ret (substring needle hay)
  | _, _ => raise TypeError
  end.

(** [v.lower()] *)
Definition value_lower (v : value) : M string :=
  match v with
  | VStr a => ret (Py.lower a)
  | _ => raise (AttributeError "lower")
  end.

(** The loop of [_check_product] over the thresholds. *)
Fixpoint check_thresholds (product : gmap string value) (current_price : value)
    (thresholds : list (gmap string value)) : M unit :=
  match thresholds with
  | [] => ret tt
  | threshold :: rest =>
      limit <- lift (getitem threshold "threshold_price") ;;
      reached <- value_le current_price limit ;;
      (if reached : bool then
         user_id <- lift (getitem threshold "user_id") ;;
         product_name <- lift (getitem product "product_name") ;;
         url <- lift (getitem product "url") ;;
         threshold_price <- lift (getitem threshold "threshold_price") ;;
         _notify_threshold_reached user_id product_name url threshold_price current_price
       else ret tt) ;;;
      check_thresholds product current_price rest
  end.

(** [_check_product] after its early return: lines 319-356, run on the
    details of a successful scrape. *)
Definition check_details (product details : gmap string value) : M unit :=
  current_price <- lift (getitem details "price") ;;
  last_price <- lift (getitem product "last_price") ;;
  (* Check price thresholds *)
  product_id <- lift (getitem product "id") ;;
  thresholds <- db_get_product_thresholds product_id ;;
  check_thresholds product current_price thresholds ;;;
  (* Check stock status *)
  is_available <- lift (getitem details "is_available") ;;
  (if truthy is_available
      && negb (truthy (dict_get product "was_available" (VBool true)))
   then
     user_id <- lift (getitem product "user_id") ;;
     product_name <- lift (getitem product "product_name") ;;
     url <- lift (getitem product "url") ;;
     _notify_stock_available user_id product_name url
   else ret tt) ;;;
  dropped <- value_lt current_price last_price ;;
  (if dropped : bool then
     size <- lift (getitem product "size") ;;
     lowered <- value_lower size ;;
     wanted <-
       (if String.eqb lowered "hepsi" then ret true
        else
          size <- lift (getitem product "size") ;;
          available_sizes <- lift (getitem details "available_sizes") ;;
          value_in size available_sizes) ;;
     if wanted : bool then
       (fun s => (Ret tt, add_counters 0 0 1 s)) ;;;
       user_id <- lift (getitem product "user_id") ;;
       product_name <- lift (getitem product "product_name") ;;
       url <- lift (getitem product "url") ;;
       available_sizes <- lift (getitem details "available_sizes") ;;
       _notify_price_drop user_id product_name url last_price current_price
         available_sizes
     else ret tt
   else ret tt) ;;;
  product_id <- lift (getitem product "id") ;;
  db_update_product_price product_id current_price.

(** [_check_product(product)]: the scrape, the early return on [None] (or
    on an empty dict), then the checks. *)
Definition _check_product (product : gmap string value) : M unit :=
  url <- lift (getitem product "url") ;;
  found <- get_product_details url ;;
  match found with
  | None => ret tt
  | Some details =>
      if decide (details = ∅) then ret tt else check_details product details
  end.

(** *** [_is_valid_trendyol_url] and [add_tracking] *)

(** The rest of [s] after the prefix [p], when [s] starts with [p]. *)
Fixpoint after (p s : string) : option string :=
  match p, s with
  | EmptyString, _ => Some s
  | String a p', String b s' => if Ascii.eqb a b then after p' s' else None
  | String _ _, EmptyString => None
  end.

(** [.*?] followed by what [k] recognises: any stretch of characters other
    than the newline, then [k]. *)
Fixpoint skip_any (k : string -> bool) (s : string) : bool :=
  k s ||
  match s with
  | EmptyString => false
  | String c s' => negb (Ascii.eqb c "010") && skip_any k s'
  end.

(** [-p-[0-9]+] at the start of [s]: one digit after the dashes is enough
    for a match. *)
Definition product_id_here (s : string) : bool :=
  match after "-p-" s with
  | Some (String d _) =>
      match Py.digit_of d with
      | Some _ => true
      | None => false
      end
  | _ => false
  end.

(** [/.*?-p-[0-9]+] at the start of [s]. *)
Definition path_here (s : string) : bool :=
  match after "/" s with
  | Some rest => skip_any product_id_here rest
  | None => false
  end.

(** The whole pattern, [trendyol\.com/.*?/.*?-p-[0-9]+], at the start of [s]. *)
Definition match_here (s : string) : bool :=
  match after "trendyol.com/" s with
  | Some rest => skip_any path_here rest
  | None => false
  end.

(** [re.search(pattern, s)] as a truth value: a match at some position. *)
Fixpoint search (s : string) : bool :=
  match_here s ||
  match s with
  | EmptyString => false
  | String _ s' => search s'
  end.

(** [_is_valid_trendyol_url(url)] for a [str]. *)
Definition _is_valid_trendyol_url (url : string) : bool :=
  search (Py.lower url).

(** No character of [s] is the newline, which [.] does not match. *)
Definition no_newline (s : string) : Prop :=
  forall c, In c (list_ascii_of_string s) -> c <> "010"%char.

(** [c] is one of [0-9]. *)
Definition is_digit (c : ascii) : Prop := exists d, Py.digit_of c = Some d.

(** [add_tracking(user_id, url, size)]: the validation, the scrape, the
    insert of the row with the scraped name and price at the time of the
    call; the details of the scrape are returned. *)
Definition add_tracking (user_id : Z) (url size : string) : M (gmap string value) :=
  if negb (_is_valid_trendyol_url url) then
    raise (ValueError "Geçersiz Trendyol URL'i")
  else
    found <- get_product_details (VStr url) ;;
    match found with
    | None => raise (ValueError "Ürün bilgileri alınamadı")
    | Some initial_details =>
        if decide (initial_details = ∅) then
          raise (ValueError "Ürün bilgileri alınamadı")
        else
          last_price <- lift (getitem initial_details "price") ;;
          product_name <- lift (getitem initial_details "name") ;;
          match last_price, product_name with
          | VFloat price, VStr name =>
              (fun s =>
                 (Ret tt,
                  set_db (snd (Database.add_tracked_product user_id url size price name
                                 (clock s) (db s))) s)) ;;;
              ret initial_details
          | _, _ => raise TypeError
          end
    end.

(** [test_driver()] *)
Definition test_driver : M bool :=
  with_driver
    (fun _ => driver_get (VStr "https://www.trendyol.com") ;;; ret true)
    (fun _ => logm ERROR "Driver test failed" ;;; ret false)
    pool_return_driver.

(** The [for] loop of [_tracking_loop]: it stops at the first product met
    after [is_running] went false, and an exception leaves it. *)
Fixpoint check_products (products : list (gmap string value)) : M unit :=
  match products with
  | [] => ret tt
  | product :: rest =>
      running <- (fun s => (Ret (is_running s), s)) ;;
      if running : bool then _check_product product ;;; check_products rest
      else ret tt
  end.

(** One round of the [while] loop of [_tracking_loop]; the result tells
    whether the loop goes on ([false] after a [break]). *)
Definition tracking_round : M bool :=
  try_except
    (products <- (fun s => (Ret (Database.get_all_tracked_products (db s)), s)) ;;
     check_products products ;;;
     sleep 900 ;;;
     ret true)
    (fun _ =>
       logm ERROR "Error in tracking loop" ;;;
       running <- (fun s => (Ret (is_running s), s)) ;;
       if running : bool then sleep 60 ;;; ret true else ret false).


End Scraping.

(** [ProductTracker.cleanup]: the flag, the bounded wait for the thread
    (which changes nothing here), the pool. *)
Definition cleanup : M unit :=
  logm INFO "Cleaning up ProductTracker..." ;;;
  (fun s => (Ret tt, set_is_running false s)) ;;;
  (fun s => (Ret tt, set_pool (DriverPool.cleanup (pool s)) s)) ;;;
  logm INFO "ProductTracker cleanup completed.".

(** The tracker as [__init__] leaves it, the driver test apart. *)
Definition init (d : Database.t) : state :=
  {| pool := DriverPool.default; db := d; is_running := true; clock := 0;
     visits := 0; log := []; slept := []; sent := [];
     SCRAPE_COUNTER := 0; SCRAPE_ERROR_COUNTER := 0; PRICE_DROPS := 0 |}.

(** *** Predicates on computations, for the proofs *)

(** What the claims call the stored state and the notifications. *)
Definition stored (s : state) : Database.t * list (value * message) * bool :=
  (db s, sent s, is_running s).

(** [m] leaves the store, the sink and the running flag as they are. *)
Definition keeps {A} (m : M A) : Prop :=
  forall s, stored (snd (m s)) = stored s.

(** [m] never ends in an exception. *)
Definition never_raises {A} (m : M A) : Prop :=
  forall s e, fst (m s) <> Raise e.

(** Every value [m] returns satisfies [Q]. *)
Definition returns {A} (m : M A) (Q : A -> Prop) : Prop :=
  forall s a s', m s = (Ret a, s') -> Q a.

(** The dict of a successful scrape has the four keys of lines 220-225,
    and a price above zero. *)
Definition scraped (found : option (gmap string value)) : Prop :=
  match found with
  | None => True
  | Some details =>
      exists name price sizes checked,
        details = make_details name price sizes checked /\ Py.le price Py.zero = false
  end.

(** The notification [_check_product] sends for the row [r] of
    [price_thresholds] once the price of [product] has reached it. *)
Definition threshold_notification (product : Database.tracked_product)
    (price : Py.pyfloat) (r : Database.price_threshold) : value * message :=
  (VInt (Database.th_user_id r),
   ThresholdReached (VStr (Database.product_name product)) (VStr (Database.url product))
     (VFloat (Database.th_threshold_price r)) (VFloat price)).

(** The thresholds of product [pid] whose price is at least [price]. *)
Definition thresholds_reached (pid : Z) (price : Py.pyfloat) (d : Database.t)
  : list Database.price_threshold :=
  List.filter
    (fun r => (Database.th_product_id r =? pid) && Py.le price (Database.th_threshold_price r))
    (Database.price_thresholds d).

(** [m] only appends to the log. *)
Definition extends_log {A} (m : M A) : Prop :=
  forall s, exists entries, log (snd (m s)) = (log s ++ entries)%list.

(** Whenever [m] returns [None] it has logged an error on the way. *)
Definition logs_error {A} (m : M (option A)) : Prop :=
  forall s, fst (m s) = Ret None ->
    exists entries, log (snd (m s)) = (log s ++ entries)%list
                    /\ In ERROR (List.map fst entries).

(** The sessions of the pool that are handed out: those counted as active
    and not idle in the queue. *)
Definition handed_out (p : DriverPool.t) : Z :=
  DriverPool.active_drivers p - Z.of_nat (length (DriverPool.drivers p)).

(** Unless it blocks, [m] ends with [k] more sessions handed out than it
    started with, and with the capacity of the pool unchanged. *)
Definition shifts {A} (k : Z) (m : M A) : Prop :=
  forall s, fst (m s) <> Hang ->
    handed_out (pool (snd (m s))) = handed_out (pool s) + k
    /\ DriverPool.max_drivers (pool (snd (m s))) = DriverPool.max_drivers (pool s).


(** Several notifications handed to the sink, in order. *)
Definition add_sents (l : list (value * message)) (s : state) : state :=
  fold_left (fun s n => add_sent n s) l s.

End ProductTracker.

(** ** [TrendyolScraper] of [store_scrapers.py] *)

Module TrendyolScraper.

(** [get_price]: one selector, the same text handling, [0.0] on any
    exception. *)
Definition get_price (pg : ProductTracker.page) : Py.pyfloat :=
  match ProductTracker.by_class pg "prc-dsc" with
  | inr text =>
      match Py.float (Py.replace "," "." (Py.replace "." "" (Py.replace "TL" ""
               (Py.strip text)))) with
      | Some price => price
      | None => Py.zero
      end
  | inl _ => Py.zero
  end.

(** [get_sizes] *)
Definition get_sizes (pg : ProductTracker.page) : list string :=
  match ProductTracker.by_css pg "div.sp-itm:not(.so)" with
  | inr texts => List.map Py.strip texts
  | inl _ => []
  end.

(** [is_in_stock] *)
Definition is_in_stock (pg : ProductTracker.page) : bool :=
  Nat.ltb 0 (length (get_sizes pg)).

End TrendyolScraper.

(** ** [BershkaScraper] of [store_scrapers.py] *)

Module BershkaScraper.

(** [get_price] *)
Definition get_price (pg : ProductTracker.page) : Py.pyfloat :=
  match ProductTracker.by_class pg "current-price-elem" with
  | inr text =>
      match Py.float (Py.replace "," "." (Py.replace "." "" (Py.replace "TL" ""
               (Py.strip text)))) with
      | Some price => price
      | None => Py.zero
      end
  | inl _ => Py.zero
  end.

(** [get_sizes] *)
Definition get_sizes (pg : ProductTracker.page) : list string :=
  match ProductTracker.by_css pg ".size-selector-option:not(.disabled)" with
  | inr texts => List.map Py.strip texts
  | inl _ => []
  end.

(** [is_in_stock] *)
Definition is_in_stock (pg : ProductTracker.page) : bool :=
  Nat.ltb 0 (length (get_sizes pg)).

End BershkaScraper.

(** ** Request counting ([user_stats]) and the rate limit of the bot *)

Module UserStats.

(** One row of [user_stats], found under its primary key [user_id].  The
    times are those of [datetime('now')], counted in seconds. *)
Record row := {
  request_count : Z;
  last_request : Z
}.

(** [update_user_stats(user_id)] at time [now]: the UPDATE restarts the
    count when the last request is more than a minute old and adds one
    otherwise; without a row the INSERT starts the count at one. *)
Definition update_user_stats (user now : Z) (t : gmap Z row) : gmap Z row :=
  match t !! user with
  | Some r =>
      <[user := {| request_count :=
                     if last_request r <? now - 60 then 1 else request_count r + 1;
                   last_request := now |}]> t
  | None => <[user := {| request_count := 1; last_request := now |}]> t
  end.

(** [get_user_request_count(user_id, timeframe_minutes)] at time [now],
    asked with a number of minutes that is not negative: the count of the
    row when its last request is younger than the time frame, else 0. *)
Definition get_user_request_count (user : Z) (timeframe_minutes : N) (now : Z)
    (t : gmap Z row) : Z :=
  match t !! user with
  | Some r =>
      if now - 60 * Z.of_N timeframe_minutes <? last_request r
      then request_count r else 0
  | None => 0
  end.

End UserStats.

Module Bot.

Import UserStats.

Definition RATE_LIMIT : Z := 100.
Definition RATE_WINDOW : N := 60.

(** The wrapper of [rate_limit] around a handler, as far as the request
    counts go: the count is read at time [asked]; at the limit the request
    is refused and nothing is written; otherwise the handler runs and,
    whether it returns or raises, the request is counted at time
    [finished].  The result tells whether the handler ran. *)
Definition rate_limit (user asked finished : Z) (t : gmap Z row) : bool * gmap Z row :=
  if RATE_LIMIT <=? get_user_request_count user RATE_WINDOW asked t
  then (false, t)
  else (true, update_user_stats user finished t).

(** Requests of one user at the given times, each handled within its
    second. *)
Fixpoint requests (user : Z) (times : list Z) (t : gmap Z row) : list bool * gmap Z row :=
  match times with
  | [] => ([], t)
  | now :: rest =>
      let '(served, t1) := rate_limit user now now t in
      let '(more, t2) := requests user rest t1 in
      (served :: more, t2)
  end.


End Bot.

(** ** The delete button of the bot *)

Module BotCallbacks.

(** The value of the digits [u] read after the value [acc]. *)
Fixpoint uint_value (u : Decimal.uint) (acc : Z) : Z :=
  match u with
  | Nil => acc
  | D0 l => uint_value l (10 * acc + 0)
  | D1 l => uint_value l (10 * acc + 1)
  | D2 l => uint_value l (10 * acc + 2)
  | D3 l => uint_value l (10 * acc + 3)
  | D4 l => uint_value l (10 * acc + 4)
  | D5 l => uint_value l (10 * acc + 5)
  | D6 l => uint_value l (10 * acc + 6)
  | D7 l => uint_value l (10 * acc + 7)
  | D8 l => uint_value l (10 * acc + 8)
  | D9 l => uint_value l (10 * acc + 9)
  end.

(** No character of [s] is whitespace or an underscore. *)
Definition plain (s : string) : Prop :=
  forall c, In c (list_ascii_of_string s) -> Py.isspace c = false /\ c <> "_"%char.

(** [str(n)] for an [int]: the decimal digits, after a minus sign for a
    negative number. *)
Definition str_of_int (n : Z) : string := NilZero.string_of_int (Z.to_int n).

(** [int(s)] for a [str], in base ten: surrounding whitespace is dropped,
    a sign may come first, then digits, single underscores allowed between
    them, up to the end.  [None] stands for [ValueError]. *)
Definition int_of_str (s : string) : option Z :=
  let body := list_ascii_of_string (Py.strip s) in
  let '(neg, rest) :=
    match body with
    | c :: rest =>
        if Ascii.eqb c "-" then (true, rest)
        else if Ascii.eqb c "+" then (false, rest) else (false, body)
    | [] => (false, body)
    end in
  match Py.digitpart 0 rest with
  | Some (n, _, []) => Some (if neg : bool then - n else n)
  | _ => None
  end.

(** [s.split(sep)] for a separator of one character. *)
Fixpoint split_on (sep : ascii) (s : string) : list string :=
  match s with
  | EmptyString => [EmptyString]
  | String c s' =>
      if Ascii.eqb c sep then EmptyString :: split_on sep s'
      else
        match split_on sep s' with
        | piece :: pieces => String c piece :: pieces
        | [] => [String c EmptyString]
        end
  end.

(** The [callback_data] that [list_products] puts on the delete button of
    a product. *)
Definition callback_data (product_id : Z) : string :=
  "delete_" ++ str_of_int product_id.

(** How a press of the button ends: with one of the two answers, or with
    the exception of the first line of the handler. *)
Inductive pressed :=
  | Stopped             (* "Takip durduruldu" *)
  | NotStopped          (* "Urun takibi durdurulamadi" *)
  | IndexError          (* the data has no second piece *)
  | NotANumber.         (* [ValueError]: the second piece is no number *)

(** [delete_callback]: [int(query.data.split('_')[1])], then
    [delete_product] for the user who pressed. *)
Definition delete_callback (from_user : Z) (data : string) (d : Database.t)
  : pressed * Database.t :=
  match nth_error (split_on "_" data) 1 with
  | None => (IndexError, d)
  | Some piece =>
      match int_of_str piece with
      | None => (NotANumber, d)
      | Some product_id =>
          let '(deleted, d') := Database.delete_product from_user product_id d in
          (if deleted : bool then Stopped else NotStopped, d')
      end
  end.

End BotCallbacks.

(** ** Price texts as the shop writes them *)

Module PriceText.

(** The character of the digit [d]. *)
Definition digit (d : N) : ascii := ascii_of_N (48 + d).

(** A row of digits as text. *)
Fixpoint digits (ds : list N) : string :=
  match ds with
  | [] => ""
  | d :: ds' => String (digit d) (digits ds')
  end.

(** Every entry is one of 0..9. *)
Definition are_digits (ds : list N) : bool := forallb (fun d => (d <? 10)%N) ds.

(** The number a row of digits denotes in base ten. *)
Definition value (ds : list N) : Z :=
  fold_left (fun acc d => 10 * acc + Z.of_N d) ds 0.

(** Groups of digits with the thousands separator between them. *)
Fixpoint grouped (first : list N) (more : list (list N)) : string :=
  match more with
  | [] => digits first
  | g :: more' => digits first ++ "." ++ grouped g more'
  end.

(** The digits after the separator [sep], when there are any. *)
Definition decimal_part (sep : string) (decimals : list N) : string :=
  match decimals with [] => "" | _ => sep ++ digits decimals end.

(** An amount: the groups of the whole part, then a comma and the decimals
    when there are any. *)
Definition amount (first : list N) (more : list (list N)) (decimals : list N) : string :=
  grouped first more ++ decimal_part "," decimals.

(** Every character of [s] satisfies [p]. *)
Fixpoint all_chars (p : ascii -> bool) (s : string) : bool :=
  match s with
  | EmptyString => true
  | String c s' => p c && all_chars p s'
  end.


(** A price as the page shows it: blanks, the amount, the currency "TL"
    after a gap of blanks when it is there at all, blanks. *)
Definition price_text (lead : string) (first : list N) (more : list (list N))
    (decimals : list N) (currency : option string) (trail : string) : string :=
  lead ++ amount first more decimals
  ++ match currency with Some gap => gap ++ "TL" | None => "" end ++ trail.

(** The rational an amount denotes. *)
Definition amount_value (first : list N) (more : list (list N)) (decimals : list N) : Q :=
  value (first ++ concat more ++ decimals) # Z.to_pos (10 ^ Z.of_nat (length decimals)).

(** What the reading of a price relies on in the character of a digit: it
    is no blank, none of the characters that are replaced, no sign, and
    does not start [inf], [nan] or an exponent. *)
Definition plain_char (c : ascii) : bool :=
  negb (Py.isspace c) && negb (Ascii.eqb "T" c) && negb (Ascii.eqb "." c)
  && negb (Ascii.eqb "," c) && negb (Ascii.eqb c "-") && negb (Ascii.eqb c "+")
  && negb (Ascii.eqb c "_") && negb (Ascii.eqb (Py.lower_char c) "i")
  && negb (Ascii.eqb (Py.lower_char c) "n") && negb (Ascii.eqb (Py.lower_char c) "e").

(** The value read so far, carried on through more digits. *)
Definition value_from (acc : Z) (ds : list N) : Z :=
  fold_left (fun acc d => 10 * acc + Z.of_N d) ds acc.


End PriceText.
(** ** Concrete pools, pages and stores used below *)

Module Examples.

Import DriverPool Interleaved.

(** The default pool after three [get_driver] calls and no return. *)
Definition three_out : DriverPool.t :=
  snd (get_driver None (snd (get_driver None (snd (get_driver None default))))).

(** The default pool after one session was handed out and given back. *)
Definition one_idle : DriverPool.t :=
  return_driver 0%nat (snd (get_driver None default)).

(** The default pool while its one session is handed out. *)
Definition one_out : DriverPool.t := snd (get_driver None default).

(** Two threads on the default pool.  Each first gets a session of its own
    (as [get_product_details] does), which brings [active_drivers] to 2.
    Then each enters [get_driver] again (as the nested
    [get_available_sizes] does) and passes the capacity test of line 44
    before the other has reached line 46. *)
Definition racy_schedule : list (nat * action) :=
  [(0, Advance); (0, Advance); (0, Advance); (0, Advance);
   (1, Advance); (1, Advance); (1, Advance); (1, Advance);
   (0, Advance); (0, Advance);
   (1, Advance); (1, Advance);
   (0, Advance); (0, Advance);
   (1, Advance); (1, Advance)]%nat.

(** A product page of the shop: the name under the first name selector,
    [price_text] under the first price selector, the sizes under the first
    size selector. *)
Definition shirt_page (price_text : string) (sizes : list string) : ProductTracker.page :=
  {| ProductTracker.load := None;
     ProductTracker.body_wait := None;
     ProductTracker.by_class := fun c =>
       if String.eqb c "pr-new-br" then inr "Shirt"
       else if String.eqb c "prc-dsc" then inr price_text
       else inl NoSuchElementException;
     ProductTracker.size_wait := None;
     ProductTracker.scroll := inr 0%nat;
     ProductTracker.by_css := fun c =>
       if String.eqb c "div.sp-itm:not(.so)" then inr sizes else inr [] |}.

(** A visit during which the page does not load. *)
Definition down_page : ProductTracker.page :=
  {| ProductTracker.load := Some WebDriverException;
     ProductTracker.body_wait := Some TimeoutException;
     ProductTracker.by_class := fun _ => inl NoSuchElementException;
     ProductTracker.size_wait := Some TimeoutException;
     ProductTracker.scroll := inl WebDriverException;
     ProductTracker.by_css := fun _ => inl WebDriverException |}.

(** A shop that shows the shirt at [price_text] in [sizes] at every visit. *)
Definition shop (price_text : string) (sizes : list string) : ProductTracker.env :=
  {| ProductTracker.web := fun _ _ => shirt_page price_text sizes;
     ProductTracker.edge := None;
     ProductTracker.notification_callback := true |}.

(** A shop whose page fails to load at the first two visits and is fine
    from the third on. *)
Definition flaky_shop : ProductTracker.env :=
  {| ProductTracker.web := fun _ visit =>
       if Nat.ltb visit 2 then down_page else shirt_page "80 TL" ["M"; "L"];
     ProductTracker.edge := None;
     ProductTracker.notification_callback := true |}.

Definition shirt_url : string := "https://www.trendyol.com/brand/shirt-p-1".

(** User 7 tracks the shirt in size M; its last price is 100. *)
Definition shirt : Database.tracked_product :=
  {| Database.id := 1; Database.user_id := 7; Database.url := shirt_url;
     Database.size := "M"; Database.last_price := Py.Fin 100;
     Database.product_name := "Shirt";
     Database.last_check := 0; Database.created_at := 0 |}.

Definition threshold_at (rowid : Z) (price : Q) : Database.price_threshold :=
  {| Database.th_id := rowid; Database.th_product_id := 1; Database.th_user_id := 7;
     Database.th_threshold_price := Py.Fin price; Database.th_created_at := 0 |}.

Definition store (thresholds : list Database.price_threshold) : Database.t :=
  {| Database.tracked_products := [shirt]; Database.price_history := [];
     Database.price_thresholds := thresholds;
     Database.seq_tracked_products := 1;
     Database.seq_price_history := 0 |}.

(** The shirt's row as a dict that also records that the product was not
    available at the last check. *)
Definition shirt_was_unavailable : gmap string value :=
  <["was_available" := VBool false]> (Database.product_dict shirt).

End Examples.

(** * Properties *)

(** ** The store *)

Section DatabaseFacts.

Import Database.

Lemma filter_nothing {A} (f : A -> bool) (l : list A) :
  length (List.filter f l) = 0%nat -> List.filter (fun x => negb (f x)) l = l.
Proof.
  induction l as [|x l IH]; simpl; [reflexivity|].
  destruct (f x); simpl; [discriminate|].
  intros H. f_equal. exact (IH H).
Qed.

Lemma delete_where_spec (p u : Z) (r : tracked_product) :
  delete_where p u r = true <-> id r = p /\ user_id r = u.
Proof.
  unfold delete_where. rewrite andb_true_iff, !Z.eqb_eq. tauto.
Qed.

Lemma rowcount_positive (p u : Z) (rows : list tracked_product) :
  Nat.ltb 0 (length (List.filter (delete_where p u) rows)) = true <->
  exists r, In r rows /\ id r = p /\ user_id r = u.
Proof.
  rewrite Nat.ltb_lt. split.
  - destruct (List.filter (delete_where p u) rows) as [|r l] eqn:Hf; simpl; [lia|].
    intros _. exists r.
    assert (Hin : In r (List.filter (delete_where p u) rows)) by (rewrite Hf; left; reflexivity).
    apply filter_In in Hin. destruct Hin as [Hin Hw].
    apply delete_where_spec in Hw. tauto.
  - intros (r & Hin & Hid & Hu).
    assert (Hin' : In r (List.filter (delete_where p u) rows)).
    { apply filter_In. split; [exact Hin|]. apply delete_where_spec. tauto. }
    destruct (List.filter (delete_where p u) rows); simpl; [contradiction | lia].
Qed.

(** C10.  [delete_product(u, p)] returns true exactly when a row with id
    [p] owned by [u] exists; the rows left are those that are not that
    row, so a row of another user always stays; when it returns false the
    store is unchanged. *)
Theorem delete_product_owner_only (u p : Z) (d : Database.t) :
  (fst (delete_product u p d) = true <->
     exists r, In r (tracked_products d) /\ id r = p /\ user_id r = u)
  /\ (forall r, In r (tracked_products (snd (delete_product u p d))) <->
        In r (tracked_products d) /\ ~ (id r = p /\ user_id r = u))
  /\ (forall r, In r (tracked_products d) -> user_id r <> u ->
        In r (tracked_products (snd (delete_product u p d))))
  /\ (fst (delete_product u p d) = false -> snd (delete_product u p d) = d).
Proof.
  assert (Hrows : forall r, In r (tracked_products (snd (delete_product u p d))) <->
                            In r (tracked_products d) /\ ~ (id r = p /\ user_id r = u)).
  { intros r. simpl. rewrite filter_In, negb_true_iff.
    rewrite <- (delete_where_spec p u r).
    destruct (delete_where p u r); intuition congruence. }
  split; [apply rowcount_positive|].
  split; [exact Hrows|].
  split.
  - intros r Hin Hu. apply Hrows. tauto.
  - simpl. intros Hfalse. destruct d as [rows hist ths s1 s2]. simpl in *.
    f_equal. apply filter_nothing.
    destruct (List.filter (delete_where p u) rows); [reflexivity | discriminate].
Qed.

(** [update_product_price], once called, sets the price and the time of
    the check on the rows with that id, leaves the other rows as they are
    and appends one row to the history. *)
Lemma update_product_price_spec (p : Z) (price : Py.pyfloat) (now : Z) (d : Database.t) :
  price_history (update_product_price p price now d)
  = (price_history d ++
     [{| ph_id := seq_price_history d + 1; ph_product_id := p;
         ph_price := price; ph_checked_at := now |}])%list
  /\ List.map id (tracked_products (update_product_price p price now d))
     = List.map id (tracked_products d)
  /\ (forall r, In r (tracked_products (update_product_price p price now d)) ->
        id r = p -> last_price r = price /\ last_check r = now)
  /\ (forall r, In r (tracked_products d) -> id r <> p ->
        In r (tracked_products (update_product_price p price now d))).
Proof.
  split; [reflexivity|]. simpl. split; [|split].
  - rewrite List.map_map. apply List.map_ext. intros r. unfold set_price.
    destruct (id r =? p); reflexivity.
  - intros r Hin Hid. apply in_map_iff in Hin. destruct Hin as (r0 & <- & _).
    unfold set_price in *. destruct (id r0 =? p) eqn:Heq; [split; reflexivity|].
    apply Z.eqb_neq in Heq. contradiction.
  - intros r Hin Hid. apply in_map_iff. exists r. split; [|exact Hin].
    unfold set_price. apply Z.eqb_neq in Hid. rewrite Hid. reflexivity.
Qed.

Lemma delete_product_owner_only_witness :
  snd (delete_product 8 1
         (snd (add_tracked_product 7 "https://www.trendyol.com/a/b-p-1" "M"
                 (Py.Fin 100) "Shirt" 0 Database.empty)))
  = snd (add_tracked_product 7 "https://www.trendyol.com/a/b-p-1" "M"
           (Py.Fin 100) "Shirt" 0 Database.empty).
Proof.
  apply (delete_product_owner_only 8 1
           (snd (add_tracked_product 7 "https://www.trendyol.com/a/b-p-1" "M"
                   (Py.Fin 100) "Shirt" 0 Database.empty))).
  reflexivity.
Defined.

End DatabaseFacts.

(** ** The driver pool *)

Section PoolFacts.

Import DriverPool.

Lemma cleanup_loop_spec (q : list driver) (a : Z) (qs : list driver) (g : Z) :
  cleanup_loop q a qs g =
  (a - Z.of_nat (length q), (qs ++ q)%list, g - Z.of_nat (length q)).
Proof.
  revert a qs g. induction q as [|d q IH]; intros a qs g; simpl cleanup_loop.
  - rewrite app_nil_r. simpl. f_equal; [f_equal|]; lia.
  - rewrite IH, <- app_assoc. simpl app.
    f_equal; [f_equal|]; simpl length; lia.
Qed.

Lemma cleanup_eq (p : DriverPool.t) :
  cleanup p =
  {| max_drivers := max_drivers p; drivers := [];
     active_drivers := active_drivers p - Z.of_nat (length (drivers p));
     launched := launched p; quitted := quitted p ++ drivers p;
     ACTIVE_DRIVERS := ACTIVE_DRIVERS p - Z.of_nat (length (drivers p)) |}.
Proof. unfold cleanup. rewrite cleanup_loop_spec. reflexivity. Qed.

(** What holds of the pool as long as calls run one at a time. *)
Lemma serial_invariant (max : Z) (p : DriverPool.t) (h : list driver) :
  Serial.reachable max p h ->
  max_drivers p = max
  /\ active_drivers p = Z.of_nat (length (drivers p) + length h)
  /\ (0 <= max -> active_drivers p <= max).
Proof.
  induction 1 as [|edge p h d p' _ IH Hget|p h1 d h2 _ IH|p h _ IH].
  - simpl. repeat split; lia.
  - destruct IH as (Hmax & Hact & Hcap). unfold get_driver in Hget.
    destruct (drivers p) as [|d0 q] eqn:Hq.
    + destruct (Z.ltb_spec (active_drivers p) (max_drivers p)) as [Hlt|Hge];
        [|discriminate].
      destruct edge; [discriminate|]. inversion Hget; subst d p'; clear Hget.
      simpl. rewrite Hq. simpl in *. repeat split; lia.
    + inversion Hget; subst d0 p'; clear Hget.
      simpl in *. repeat split; try lia.
  - destruct IH as (Hmax & Hact & Hcap). simpl.
    rewrite !length_app in *. simpl in *. repeat split; try lia.
  - destruct IH as (Hmax & Hact & Hcap). rewrite cleanup_eq. simpl.
    repeat split; lia.
Qed.

(** X23.  While calls run one at a time, the sessions handed out never
    outnumber [max_drivers]; at full capacity the queue is empty and
    [get_driver] blocks, and once one of the sessions is given back the
    next [get_driver] hands out that very session and leaves the pool as
    it was at full capacity. *)
Theorem pool_capacity_serial (max : Z) (p : DriverPool.t) (h : list driver) :
  0 <= max ->
  Serial.reachable max p h ->
  max_drivers p = max
  /\ Z.of_nat (length h) <= max
  /\ (Z.of_nat (length h) = max ->
      drivers p = []
      /\ forall edge,
           get_driver edge p = (Hang, p)
           /\ forall d, get_driver edge (return_driver d p) = (Ret d, p)).
Proof.
  intros Hmax Hreach.
  destruct (serial_invariant max p h Hreach) as (Hm & Hact & Hcap).
  specialize (Hcap Hmax).
  split; [exact Hm|]. split; [lia|].
  intros Hfull.
  assert (Hq : drivers p = []).
  { destruct (drivers p) as [|d q]; [reflexivity|]. simpl in Hact. lia. }
  split; [exact Hq|]. intros edge. split.
  - unfold get_driver. rewrite Hq. simpl in Hact. rewrite Hq in Hact.
    destruct (Z.ltb_spec (active_drivers p) (max_drivers p)); [simpl in Hact; lia | reflexivity].
  - intros d. unfold get_driver, return_driver. destruct p as [m q a l qs g].
    simpl in Hq. subst q. reflexivity.
Qed.

Lemma pool_capacity_serial_witness :
  max_drivers Examples.three_out = 3
  /\ Z.of_nat (length [2; 1; 0]%nat) <= 3
  /\ (Z.of_nat (length [2; 1; 0]%nat) = 3 ->
      drivers Examples.three_out = []
      /\ forall edge,
           get_driver edge Examples.three_out = (Hang, Examples.three_out)
           /\ forall d, get_driver edge (return_driver d Examples.three_out)
                        = (Ret d, Examples.three_out)).
Proof.
  apply (pool_capacity_serial 3 Examples.three_out [2; 1; 0]%nat).
  - lia.
  - apply (Serial.reach_get 3 None
             (snd (get_driver None (snd (get_driver None default)))) [1; 0]%nat);
      [|reflexivity].
    apply (Serial.reach_get 3 None (snd (get_driver None default)) [0]%nat);
      [|reflexivity].
    apply (Serial.reach_get 3 None default []); [|reflexivity].
    apply Serial.reach_init.
Defined.

(** C5.  The cap does not hold under threads.  [get_driver] tests
    [active_drivers < max_drivers] on line 44 and counts the new session
    only on line 46, with no lock in between: two threads on a pool of
    capacity three, each holding one session and asking for a second one
    (as [get_product_details] does through [get_available_sizes]), both
    pass the test before either counts, and four sessions are handed
    out; neither thread blocks. *)
Lemma pool_capacity_broken_by_interleaving :
  exists c,
    Interleaved.run Examples.racy_schedule (Interleaved.start 3 2) = Some c
    /\ max_drivers (Interleaved.shared c) = 3
    /\ List.map Interleaved.at_line (Interleaved.threads c)
       = [Interleaved.Outside; Interleaved.Outside]
    /\ List.map Interleaved.held (Interleaved.threads c) = [[2; 0]; [3; 1]]%nat
    /\ (Z.of_nat (Interleaved.outstanding c) > max_drivers (Interleaved.shared c)).
Proof.
  eexists. split; [vm_compute; reflexivity|].
  repeat split.
Qed.

(** C8, as it holds.  [cleanup] quits every queued session and counts it
    off, and a second call changes nothing; sessions that are handed out
    are not touched; there is no closed state: a later [get_driver]
    creates a session as soon as the count is below [max_drivers].  The
    tracker's [cleanup] clears [is_running], cleans the pool and leaves the
    store and the sink alone, also when called twice. *)
Theorem cleanup_idempotent_and_reopens (p : DriverPool.t) (s : ProductTracker.state) :
  cleanup (cleanup p) = cleanup p
  /\ drivers (cleanup p) = []
  /\ quitted (cleanup p) = (quitted p ++ drivers p)%list
  /\ active_drivers (cleanup p) = active_drivers p - Z.of_nat (length (drivers p))
  /\ (active_drivers (cleanup p) < max_drivers p ->
      get_driver None (cleanup p) = (Ret (launched p), count_up (launch (cleanup p))))
  /\ (let s1 := snd (ProductTracker.cleanup s) in
      let s2 := snd (ProductTracker.cleanup s1) in
      fst (ProductTracker.cleanup s) = Ret tt
      /\ ProductTracker.is_running s1 = false
      /\ ProductTracker.pool s1 = cleanup (ProductTracker.pool s)
      /\ ProductTracker.db s1 = ProductTracker.db s
      /\ ProductTracker.sent s1 = ProductTracker.sent s
      /\ fst (ProductTracker.cleanup s1) = Ret tt
      /\ ProductTracker.is_running s2 = false
      /\ ProductTracker.pool s2 = ProductTracker.pool s1
      /\ ProductTracker.db s2 = ProductTracker.db s
      /\ ProductTracker.sent s2 = ProductTracker.sent s).
Proof.
  assert (Hidem : forall q, cleanup (cleanup q) = cleanup q).
  { intros q. rewrite (cleanup_eq (cleanup q)), (cleanup_eq q). simpl.
    rewrite app_nil_r. f_equal; lia. }
  split; [apply Hidem|].
  rewrite (cleanup_eq p). simpl.
  split; [reflexivity|]. split; [reflexivity|]. split; [reflexivity|].
  split.
  - intros Hlt. unfold get_driver. simpl.
    destruct (Z.ltb_spec (active_drivers p - Z.of_nat (length (drivers p))) (max_drivers p));
      [reflexivity | lia].
  - cbn. rewrite Hidem. repeat split; reflexivity.
Qed.

Lemma cleanup_idempotent_and_reopens_witness :
  active_drivers (cleanup Examples.one_idle) < max_drivers Examples.one_idle
  /\ get_driver None (cleanup Examples.one_idle)
     = (Ret 1%nat, count_up (launch (cleanup Examples.one_idle))).
Proof.
  split; [reflexivity|].
  apply (cleanup_idempotent_and_reopens Examples.one_idle
           (ProductTracker.init Database.empty)).
  reflexivity.
Defined.

(** C8, as stated, fails: after [cleanup] the pool hands out a freshly
    created session instead of raising, and a session that is handed out
    while [cleanup] runs is not quit. *)
Lemma acquire_after_cleanup_succeeds :
  quitted (cleanup Examples.one_idle) = [0%nat]
  /\ fst (get_driver None (cleanup Examples.one_idle)) = Ret 1%nat
  /\ (forall e, fst (get_driver None (cleanup Examples.one_idle)) <> Raise e)
  /\ launched (snd (get_driver None (cleanup Examples.one_idle))) = 2%nat
  /\ launched Examples.one_out = 1%nat
  /\ quitted (cleanup Examples.one_out) = [].
Proof.
  repeat split; try reflexivity.
  intros e. vm_compute. discriminate.
Qed.

End PoolFacts.

(** ** Scraping: what it leaves alone, that it never raises *)

Section ScrapingFacts.

Import ProductTracker.

Variable E : env.

Lemma keeps_ret {A} (a : A) : keeps (ret a).
Proof. intros s. reflexivity. Qed.

Lemma keeps_raise {A} (e : exn) : keeps (@raise A e).
Proof. intros s. reflexivity. Qed.

Lemma keeps_bind {A B} (m : M A) (k : A -> M B) :
  keeps m -> (forall a, keeps (k a)) -> keeps (bind m k).
Proof.
  intros Hm Hk s. unfold bind. specialize (Hm s).
  destruct (m s) as [[a|e|] s1]; simpl in *; [|exact Hm..].
  rewrite Hk. exact Hm.
Qed.

Lemma keeps_try_except {A} (m : M A) (h : exn -> M A) :
  keeps m -> (forall e, keeps (h e)) -> keeps (try_except m h).
Proof.
  intros Hm Hh s. unfold try_except. specialize (Hm s).
  destruct (m s) as [[a|e|] s1]; simpl in *; [exact Hm| |exact Hm].
  rewrite Hh. exact Hm.
Qed.

Lemma keeps_try_finally {A} (m : M A) (f : M unit) :
  keeps m -> keeps f -> keeps (try_finally m f).
Proof.
  intros Hm Hf s. unfold try_finally. specialize (Hm s).
  destruct (m s) as [[a|e|] s1]; simpl in *; [| |exact Hm];
    specialize (Hf s1); destruct (f s1) as [[[]|e'|] s2]; simpl in *; congruence.
Qed.

Lemma keeps_lift {A} (r : exn + A) : keeps (lift r).
Proof. destruct r; intros s; reflexivity. Qed.

Lemma keeps_check (r : option exn) : keeps (check r).
Proof. destruct r; intros s; reflexivity. Qed.

Lemma keeps_logm (l : level) (msg : string) : keeps (logm l msg).
Proof. intros s. reflexivity. Qed.

Lemma keeps_sleep (d : Z) : keeps (sleep d).
Proof. intros s. reflexivity. Qed.

Lemma keeps_now : keeps now.
Proof. intros s. reflexivity. Qed.

Lemma keeps_counters (a b c : nat) :
  keeps (fun s => (Ret tt, add_counters a b c s)).
Proof. intros s. reflexivity. Qed.

Lemma keeps_retry_internal {A} (f : M A) (more : nat) (delay backoff : Z) :
  keeps f -> keeps (retry_internal f more delay backoff).
Proof.
  intros Hf. revert delay. induction more as [|k IH]; intros delay s; simpl;
    specialize (Hf s); destruct (f s) as [[a|e|] s1]; simpl in *; try exact Hf;
    destruct (is_WebDriverException e); simpl; try exact Hf.
  unfold bind at 1. simpl. unfold bind at 1. simpl.
  rewrite IH. exact Hf.
Qed.

Lemma keeps_pool_get_driver : keeps (pool_get_driver E).
Proof.
  intros s. unfold pool_get_driver.
  destruct (DriverPool.get_driver (edge E) (pool s)) as [[d|e|] p]; try reflexivity.
  simpl. destruct (Nat.ltb _ _); reflexivity.
Qed.

Lemma keeps_pool_return_driver (d : DriverPool.driver) : keeps (pool_return_driver d).
Proof. intros s. reflexivity. Qed.

Lemma keeps_driver_get (url : value) : keeps (driver_get E url).
Proof.
  intros s. unfold driver_get. destruct url; try reflexivity.
  destruct (load (web E s0 (visits s))); reflexivity.
Qed.

Lemma keeps_with_driver {A} (body : DriverPool.driver -> M A) (handler : exn -> M A)
    (final : DriverPool.driver -> M unit) :
  (forall d, keeps (body d)) -> (forall e, keeps (handler e)) ->
  (forall d, keeps (final d)) -> keeps (with_driver E body handler final).
Proof.
  intros Hb Hh Hf s. unfold with_driver.
  pose proof (keeps_pool_get_driver s) as Hg.
  destruct (pool_get_driver E s) as [[d|e|] s1]; simpl in Hg; [| |exact Hg].
  - rewrite (keeps_try_finally _ _ (keeps_try_except _ _ (Hb d) Hh) (Hf d)). exact Hg.
  - rewrite Hh. exact Hg.
Qed.

Lemma keeps_sleeps (n : nat) (d : Z) : keeps (sleeps n d).
Proof.
  induction n as [|n IH]; simpl; [apply keeps_ret|].
  apply keeps_bind; [apply keeps_sleep | intros _; exact IH].
Qed.

Lemma keeps_find_sizes (pg : page) (selectors acc : list string) :
  keeps (find_sizes pg selectors acc).
Proof.
  revert acc. induction selectors as [|sel rest IH]; intros acc; simpl;
    [apply keeps_ret|].
  apply keeps_bind; [apply keeps_lift|]. intros [|x l]; [apply IH | apply keeps_ret].
Qed.

Create HintDb keeps.
#[local] Hint Resolve keeps_ret keeps_raise keeps_lift keeps_check keeps_logm keeps_sleep
  keeps_now keeps_counters keeps_pool_return_driver keeps_driver_get keeps_sleeps
  keeps_find_sizes : keeps.

Ltac keeps_step :=
  first
    [ solve [auto with keeps]
    | apply keeps_bind; [|intros ?]
    | apply keeps_try_except; [|intros ?]
    | apply keeps_with_driver; intros ?
    | match goal with
      | |- keeps (if ?b then _ else _) => destruct b
      | |- keeps (match ?x with _ => _ end) => destruct x
      end ].

Lemma keeps_get_available_sizes (url : value) : keeps (get_available_sizes E url).
Proof.
  apply keeps_retry_internal. unfold get_available_sizes_body, _scroll_page.
  repeat keeps_step.
Qed.

Lemma keeps_extract_price (pg : page) : keeps (_extract_price pg).
Proof. unfold _extract_price. repeat keeps_step. Qed.

#[local] Hint Resolve keeps_get_available_sizes keeps_extract_price : keeps.

Lemma keeps_get_product_details (url : value) : keeps (get_product_details E url).
Proof.
  apply keeps_retry_internal. unfold get_product_details_body.
  repeat keeps_step.
Qed.

End ScrapingFacts.

Section RetryFacts.

Import ProductTracker.

Variable E : env.

Lemma never_raises_bind {A B} (m : M A) (k : A -> M B) :
  never_raises m -> (forall a, never_raises (k a)) -> never_raises (bind m k).
Proof.
  intros Hm Hk s e. unfold bind. specialize (Hm s).
  destruct (m s) as [[a|e'|] s1]; simpl in *.
  - apply Hk.
  - exfalso. exact (Hm e' eq_refl).
  - discriminate.
Qed.

Lemma never_raises_try_except {A} (m : M A) (h : exn -> M A) :
  (forall e, never_raises (h e)) -> never_raises (try_except m h).
Proof.
  intros Hh s e. unfold try_except.
  destruct (m s) as [[a|e'|] s1]; simpl; [discriminate | apply Hh | discriminate].
Qed.

Lemma never_raises_try_finally {A} (m : M A) (f : M unit) :
  never_raises m -> never_raises f -> never_raises (try_finally m f).
Proof.
  intros Hm Hf s e. unfold try_finally. specialize (Hm s).
  destruct (m s) as [[a|e'|] s1]; simpl in *.
  - specialize (Hf s1). destruct (f s1) as [[[]|e''|] s2]; simpl in *;
      [discriminate | exfalso; exact (Hf e'' eq_refl) | discriminate].
  - exfalso. exact (Hm e' eq_refl).
  - discriminate.
Qed.

Lemma never_raises_with_driver {A} (body : DriverPool.driver -> M A)
    (handler : exn -> M A) (final : DriverPool.driver -> M unit) :
  (forall e, never_raises (handler e)) -> (forall d, never_raises (final d)) ->
  never_raises (with_driver E body handler final).
Proof.
  intros Hh Hf s e. unfold with_driver.
  destruct (pool_get_driver E s) as [[d|e'|] s1]; simpl.
  - apply never_raises_try_finally; [apply never_raises_try_except, Hh | apply Hf].
  - apply Hh.
  - discriminate.
Qed.

Lemma never_raises_log_ret {A} (l : level) (msg : string) (a : A) :
  never_raises (logm l msg ;;; ret a).
Proof. intros s e. discriminate. Qed.

Lemma never_raises_return_driver (d : DriverPool.driver) :
  never_raises (pool_return_driver d).
Proof. intros s e. discriminate. Qed.

(** Both scraping bodies catch every exception themselves. *)
Lemma get_available_sizes_body_never_raises (url : value) :
  never_raises (get_available_sizes_body E url).
Proof.
  unfold get_available_sizes_body. apply never_raises_with_driver.
  - intros e s e'. discriminate.
  - apply never_raises_return_driver.
Qed.

Lemma get_product_details_body_never_raises (url : value) :
  never_raises (get_product_details_body E url).
Proof.
  unfold get_product_details_body.
  apply never_raises_bind; [intros s e; discriminate|]. intros _.
  destruct (negb (truthy url)); [apply never_raises_log_ret|].
  apply never_raises_with_driver.
  - intros e. apply never_raises_log_ret.
  - apply never_raises_return_driver.
Qed.

(** A function that never raises is called once by the decorator, which
    then neither sleeps nor logs. *)
Lemma retry_of_never_raises {A} (f : M A) (more : nat) (delay backoff : Z) (s : state) :
  never_raises f -> retry_internal f more delay backoff s = f s.
Proof.
  intros Hf. specialize (Hf s).
  destruct more; simpl; destruct (f s) as [[a|e|] s1]; simpl in *; try reflexivity;
    exfalso; exact (Hf e eq_refl).
Qed.

Lemma get_product_details_once (url : value) (s : state) :
  get_product_details E url s = get_product_details_body E url s.
Proof. apply retry_of_never_raises, get_product_details_body_never_raises. Qed.

Lemma get_available_sizes_once (url : value) (s : state) :
  get_available_sizes E url s = get_available_sizes_body E url s.
Proof. apply retry_of_never_raises, get_available_sizes_body_never_raises. Qed.

Lemma returns_ret {A} (a : A) (Q : A -> Prop) : Q a -> returns (ret a) Q.
Proof. intros HQ s a' s' H. inversion H. subst. exact HQ. Qed.

Lemma returns_bind {A B} (m : M A) (k : A -> M B) (Q : B -> Prop) :
  (forall a, returns (k a) Q) -> returns (bind m k) Q.
Proof.
  intros Hk s b s'. unfold bind.
  destruct (m s) as [[a|e|] s1]; [apply Hk | discriminate..].
Qed.

Lemma returns_try_except {A} (m : M A) (h : exn -> M A) (Q : A -> Prop) :
  returns m Q -> (forall e, returns (h e) Q) -> returns (try_except m h) Q.
Proof.
  intros Hm Hh s a s'. unfold try_except. specialize (Hm s).
  destruct (m s) as [[a'|e|] s1]; [apply Hm | apply Hh | discriminate].
Qed.

Lemma returns_try_finally {A} (m : M A) (f : M unit) (Q : A -> Prop) :
  returns m Q -> returns (try_finally m f) Q.
Proof.
  intros Hm s a s'. unfold try_finally. specialize (Hm s).
  destruct (m s) as [[a'|e|] s1]; [| |discriminate];
    destruct (f s1) as [[[]|e'|] s2]; try discriminate.
  intros H. inversion H. subst. eapply Hm. reflexivity.
Qed.

Lemma returns_with_driver {A} (body : DriverPool.driver -> M A)
    (handler : exn -> M A) (final : DriverPool.driver -> M unit) (Q : A -> Prop) :
  (forall d, returns (body d) Q) -> (forall e, returns (handler e) Q) ->
  returns (with_driver E body handler final) Q.
Proof.
  intros Hb Hh s a s'. unfold with_driver.
  destruct (pool_get_driver E s) as [[d|e|] s1]; [| apply Hh | discriminate].
  apply returns_try_finally, returns_try_except; [apply Hb | exact Hh].
Qed.

Lemma returns_retry_internal {A} (f : M A) (more : nat) (delay backoff : Z) (Q : A -> Prop) :
  returns f Q -> returns (retry_internal f more delay backoff) Q.
Proof.
  intros Hf. revert delay. induction more as [|k IH]; intros delay s a s'; simpl;
    specialize (Hf s); destruct (f s) as [[a'|e|] s1]; try discriminate; try apply Hf;
    destruct (is_WebDriverException e); try discriminate.
  unfold bind at 1. simpl. unfold bind at 1. simpl. apply IH.
Qed.

Lemma get_product_details_scraped (url : value) :
  returns (get_product_details E url) scraped.
Proof.
  apply returns_retry_internal. unfold get_product_details_body.
  apply returns_bind. intros _.
  destruct (negb (truthy url)).
  { apply returns_bind. intros _. apply returns_ret. exact I. }
  apply returns_with_driver.
  - intros d. apply returns_bind. intros _. apply returns_bind. intros pg.
    apply returns_bind. intros _.
    destruct (find_name pg name_selectors None) as [[|c n]|];
      try (apply returns_bind; intros _; apply returns_ret; exact I).
    apply returns_bind. intros price.
    destruct (Py.le price Py.zero) eqn:Hle.
    { apply returns_bind. intros _. apply returns_ret. exact I. }
    apply returns_bind. intros sizes. apply returns_bind. intros checked.
    apply returns_bind. intros _. apply returns_ret.
    exists (String c n), price, sizes, checked. split; [reflexivity | exact Hle].
  - intros e. apply returns_bind. intros _. apply returns_ret. exact I.
Qed.

End RetryFacts.

Section CheckFacts.

Import ProductTracker.

Variable E : env.

Lemma details_keys (name : string) (price : Py.pyfloat) (sizes : list string) (checked : Z) :
  getitem (make_details name price sizes checked) "price" = inr (VFloat price)
  /\ getitem (make_details name price sizes checked) "available_sizes" = inr (VList sizes)
  /\ getitem (make_details name price sizes checked) "is_available"
     = inl (KeyError "is_available")
  /\ make_details name price sizes checked <> ∅.
Proof.
  repeat split; try reflexivity.
  apply insert_non_empty.
Qed.

Lemma product_keys (r : Database.tracked_product) :
  getitem (Database.product_dict r) "id" = inr (VInt (Database.id r))
  /\ getitem (Database.product_dict r) "user_id" = inr (VInt (Database.user_id r))
  /\ getitem (Database.product_dict r) "url" = inr (VStr (Database.url r))
  /\ getitem (Database.product_dict r) "size" = inr (VStr (Database.size r))
  /\ getitem (Database.product_dict r) "last_price" = inr (VFloat (Database.last_price r))
  /\ getitem (Database.product_dict r) "product_name" = inr (VStr (Database.product_name r))
  /\ dict_get (Database.product_dict r) "was_available" (VBool true) = VBool true.
Proof. repeat split; reflexivity. Qed.

Lemma threshold_keys (r : Database.price_threshold) :
  getitem (Database.threshold_dict r) "threshold_price"
    = inr (VFloat (Database.th_threshold_price r))
  /\ getitem (Database.threshold_dict r) "user_id" = inr (VInt (Database.th_user_id r)).
Proof. repeat split; reflexivity. Qed.



Lemma filter_filter_andb {A} (f g : A -> bool) (l : list A) :
  List.filter g (List.filter f l) = List.filter (fun x => f x && g x) l.
Proof.
  induction l as [|x l IH]; simpl; [reflexivity|].
  destruct (f x); simpl; [destruct (g x)|]; rewrite IH; reflexivity.
Qed.

Lemma add_sents_app (l : list (value * message)) (n : value * message) (s : state) :
  add_sents (n :: l) s = add_sents l (add_sent n s).
Proof. reflexivity. Qed.

Lemma add_sents_stored (l : list (value * message)) (s : state) :
  db (add_sents l s) = db s
  /\ sent (add_sents l s) = (sent s ++ l)%list
  /\ is_running (add_sents l s) = is_running s
  /\ log (add_sents l s) = log s.
Proof.
  revert s. induction l as [|n l IH]; intros s; simpl.
  - rewrite app_nil_r. repeat split.
  - destruct (IH (add_sent n s)) as (Hd & Hs & Hr & Hl).
    unfold add_sents in *. rewrite Hd, Hs, Hr, Hl. simpl.
    rewrite <- app_assoc. repeat split.
Qed.

(** The loop over the thresholds of a product sends one notification per
    threshold that is reached, in the order of the rows, and returns. *)
Lemma check_thresholds_rows (row : Database.tracked_product) (price : Py.pyfloat)
    (rows : list Database.price_threshold) (s : state) :
  check_thresholds (Database.product_dict row) (VFloat price)
    (List.map Database.threshold_dict rows) s
  = (Ret tt,
     add_sents
       (List.map (threshold_notification row price)
          (List.filter (fun r => Py.le price (Database.th_threshold_price r)) rows)) s).
Proof.
  destruct (product_keys row) as (_ & _ & Hurl & _ & _ & Hname & _).
  revert s. induction rows as [|r rows IH]; intros s; [reflexivity|].
  destruct (threshold_keys r) as (Hlimit & Huser).
  cbn [List.map check_thresholds List.filter].
  rewrite Hlimit, Huser, Hurl, Hname.
  cbn [bind lift ret value_le number].
  destruct (Py.le price (Database.th_threshold_price r)).
  - cbn [bind lift ret _notify_threshold_reached send List.map]. rewrite IH. reflexivity.
  - cbn [bind ret]. apply IH.
Qed.


(** On the details of a scrape, [check_details] notifies the thresholds
    reached and then fails on the key that [get_product_details] never
    sets: the stock check, the price-drop check and the update of the
    store on the lines after it are not run. *)
Lemma check_details_misses_key (row : Database.tracked_product) (name : string)
    (price : Py.pyfloat) (sizes : list string) (checked : Z) (s : state) :
  check_details E (Database.product_dict row) (make_details name price sizes checked) s
  = (Raise (KeyError "is_available"),
     add_sents
       (List.map (threshold_notification row price)
          (thresholds_reached (Database.id row) price (db s))) s).
Proof.
  destruct (product_keys row) as (Hid & _ & _ & _ & Hlast & _ & _).
  destruct (details_keys name price sizes checked) as (Hprice & _ & Hmiss & _).
  unfold check_details. rewrite Hprice, Hlast, Hid, Hmiss.
  cbn [bind lift ret raise db_get_product_thresholds].
  unfold Database.get_product_thresholds, bind at 1. rewrite check_thresholds_rows.
  rewrite filter_filter_andb. reflexivity.
Qed.

Lemma check_product_after_scrape (row : Database.tracked_product) (s : state)
    (details : gmap string value) :
  fst (get_product_details E (VStr (Database.url row)) s) = Ret (Some details) ->
  exists name price sizes checked,
    details = make_details name price sizes checked
    /\ Py.le price Py.zero = false
    /\ _check_product E (Database.product_dict row) s
       = (Raise (KeyError "is_available"),
          add_sents
            (List.map (threshold_notification row price)
               (thresholds_reached (Database.id row) price (db s)))
            (snd (get_product_details E (VStr (Database.url row)) s))).
Proof.
  intros Hfound.
  destruct (product_keys row) as (_ & _ & Hurl & _).
  unfold _check_product. rewrite Hurl. cbn [bind lift ret]. unfold bind at 1.
  pose proof (keeps_get_product_details E (VStr (Database.url row)) s) as Hkeep.
  pose proof (get_product_details_scraped E (VStr (Database.url row)) s) as Hshape.
  destruct (get_product_details E (VStr (Database.url row)) s) as [found s1].
  simpl in Hfound, Hkeep. subst found.
  destruct (Hshape _ _ eq_refl) as (name & price & sizes & checked & Hd & Hpos).
  exists name, price, sizes, checked. split; [exact Hd|]. split; [exact Hpos|].
  destruct (details_keys name price sizes checked) as (_ & _ & _ & Hne).
  subst details. destruct (decide (make_details name price sizes checked = ∅)) as [He|_];
    [contradiction|].
  rewrite check_details_misses_key.
  injection Hkeep as Hdb _ _. rewrite Hdb. reflexivity.
Qed.

(** When the scrape yields nothing, [_check_product] returns at once. *)
Lemma check_product_after_failure (product : gmap string value) (url : value) (s : state) :
  getitem product "url" = inr url ->
  fst (get_product_details E url s) = Ret None ->
  _check_product E product s = (Ret tt, snd (get_product_details E url s)).
Proof.
  intros Hurl Hnone. unfold _check_product. rewrite Hurl. cbn [bind lift ret].
  unfold bind at 1.
  destruct (get_product_details E url s) as [found s1]. simpl in *. subst found.
  reflexivity.
Qed.

End CheckFacts.

(** ** What one check of a product does *)

Section CheckClaims.

Import ProductTracker Examples.

(** C1, at old price 100, new price 80, tracked size M, observed sizes
    M and L: the scrape succeeds and the condition of the claim holds, yet
    [_check_product] stops with [KeyError] on line 335 and sends no
    price-drop notification. *)
Theorem price_drop_not_notified :
  let s := init (store []) in
  let run := _check_product (shop "80 TL" ["M"; "L"]) (Database.product_dict shirt) s in
  fst (get_product_details (shop "80 TL" ["M"; "L"]) (VStr shirt_url) s)
    = Ret (Some (make_details "Shirt" (Py.Fin 80) ["M"; "L"] 1))
  /\ Py.lt (Py.Fin 80) (Database.last_price shirt) = true
  /\ existsb (String.eqb (Database.size shirt)) ["M"; "L"] = true
  /\ fst run = Raise (KeyError "is_available")
  /\ sent (snd run) = []
  /\ PRICE_DROPS (snd run) = 0%nat.
Proof. vm_compute. repeat split; reflexivity. Qed.

(** C2, at the same input: after the successful scrape the stored last
    price is still 100 and the price history is still empty. *)
Theorem price_not_persisted :
  let s := init (store []) in
  let run := _check_product (shop "80 TL" ["M"; "L"]) (Database.product_dict shirt) s in
  fst (get_product_details (shop "80 TL" ["M"; "L"]) (VStr shirt_url) s)
    = Ret (Some (make_details "Shirt" (Py.Fin 80) ["M"; "L"] 1))
  /\ fst run = Raise (KeyError "is_available")
  /\ List.map Database.last_price (Database.tracked_products (db (snd run)))
     = [Py.Fin 100]
  /\ Database.price_history (db (snd run)) = []
  /\ db (snd run) = store [].
Proof. vm_compute. repeat split; reflexivity. Qed.

(** C4, for a product recorded as unavailable whose page now shows sizes:
    [_check_product] stops with [KeyError] on line 335 and sends no
    restock notification. *)
Theorem restock_not_notified :
  let s := init (store []) in
  let run := _check_product (shop "80 TL" ["M"; "L"]) shirt_was_unavailable s in
  dict_get shirt_was_unavailable "was_available" (VBool true) = VBool false
  /\ TrendyolScraper.is_in_stock (shirt_page "80 TL" ["M"; "L"]) = true
  /\ fst (get_product_details (shop "80 TL" ["M"; "L"]) (VStr shirt_url) s)
     = Ret (Some (make_details "Shirt" (Py.Fin 80) ["M"; "L"] 1))
  /\ fst run = Raise (KeyError "is_available")
  /\ sent (snd run) = [].
Proof. vm_compute. repeat split; reflexivity. Qed.

(** C6, for a page that fails to load twice and then loads: the call
    returns after the first failure with nothing ([None], or no sizes),
    having logged one error and slept not at all; the third visit, which
    would have succeeded, is not made. *)
Theorem scrape_not_retried :
  let s := init (store []) in
  let details := get_product_details flaky_shop (VStr shirt_url) s in
  let sizes := get_available_sizes flaky_shop (VStr shirt_url) s in
  fst details = Ret None
  /\ visits (snd details) = 1%nat
  /\ slept (snd details) = []
  /\ List.filter (fun entry => match fst entry with INFO => false | _ => true end)
       (log (snd details))
     = [(ERROR, "Error in get_product_details")]
  /\ fst sizes = Ret []
  /\ visits (snd sizes) = 1%nat
  /\ slept (snd sizes) = []
  /\ fst (get_product_details flaky_shop (VStr shirt_url) (add_visit (add_visit s)))
     = Ret (Some (make_details "Shirt" (Py.Fin 80) ["M"; "L"] 1))
  /\ fst (get_available_sizes flaky_shop (VStr shirt_url) (add_visit (add_visit s)))
     = Ret ["M"; "L"].
Proof. vm_compute. repeat split; reflexivity. Qed.

End CheckClaims.

(** ** Scraping: what it logs *)

Section LogFacts.

Import ProductTracker.

Variable E : env.

Lemma extends_log_same {A} (m : M A) :
  (forall s, log (snd (m s)) = log s) -> extends_log m.
Proof. intros H s. exists []. rewrite app_nil_r. apply H. Qed.

Lemma extends_log_bind {A B} (m : M A) (k : A -> M B) :
  extends_log m -> (forall a, extends_log (k a)) -> extends_log (bind m k).
Proof.
  intros Hm Hk s. unfold bind. destruct (Hm s) as [l1 H1].
  destruct (m s) as [[a|e|] s1]; simpl in *; try (exists l1; exact H1).
  destruct (Hk a s1) as [l2 H2]. exists (l1 ++ l2)%list.
  rewrite H2, H1, app_assoc. reflexivity.
Qed.

Lemma extends_log_try_except {A} (m : M A) (h : exn -> M A) :
  extends_log m -> (forall e, extends_log (h e)) -> extends_log (try_except m h).
Proof.
  intros Hm Hh s. unfold try_except. destruct (Hm s) as [l1 H1].
  destruct (m s) as [[a|e|] s1]; simpl in *; try (exists l1; exact H1).
  destruct (Hh e s1) as [l2 H2]. exists (l1 ++ l2)%list.
  rewrite H2, H1, app_assoc. reflexivity.
Qed.

Lemma extends_log_try_finally {A} (m : M A) (f : M unit) :
  extends_log m -> extends_log f -> extends_log (try_finally m f).
Proof.
  intros Hm Hf s. unfold try_finally. destruct (Hm s) as [l1 H1].
  destruct (m s) as [[a|e|] s1]; simpl in *; try (exists l1; exact H1);
    destruct (Hf s1) as [l2 H2]; exists (l1 ++ l2)%list;
    destruct (f s1) as [[[]|e'|] s2]; simpl in *;
    rewrite H2, H1, app_assoc; reflexivity.
Qed.

Lemma extends_log_logm (l : level) (msg : string) : extends_log (logm l msg).
Proof. intros s. exists [(l, msg)]. reflexivity. Qed.

Lemma extends_log_ret {A} (a : A) : extends_log (ret a).
Proof. apply extends_log_same. reflexivity. Qed.

Lemma extends_log_raise {A} (e : exn) : extends_log (@raise A e).
Proof. apply extends_log_same. reflexivity. Qed.

Lemma extends_log_lift {A} (r : exn + A) : extends_log (lift r).
Proof. destruct r; apply extends_log_same; reflexivity. Qed.

Lemma extends_log_check (r : option exn) : extends_log (check r).
Proof. destruct r; apply extends_log_same; reflexivity. Qed.

Lemma extends_log_sleep (d : Z) : extends_log (sleep d).
Proof. apply extends_log_same. reflexivity. Qed.

Lemma extends_log_now : extends_log now.
Proof. apply extends_log_same. reflexivity. Qed.

Lemma extends_log_counters (a b c : nat) :
  extends_log (fun s => (Ret tt, add_counters a b c s)).
Proof. apply extends_log_same. reflexivity. Qed.

Lemma extends_log_pool_return_driver (d : DriverPool.driver) :
  extends_log (pool_return_driver d).
Proof. apply extends_log_same. reflexivity. Qed.

Lemma extends_log_pool_get_driver : extends_log (pool_get_driver E).
Proof.
  intros s. unfold pool_get_driver.
  destruct (DriverPool.get_driver (edge E) (pool s)) as [[d|e|] p]; simpl.
  - destruct (Nat.ltb _ _); [eexists; reflexivity|].
    exists []. rewrite app_nil_r. reflexivity.
  - eexists. simpl. rewrite <- !app_assoc. reflexivity.
  - exists []. rewrite app_nil_r. reflexivity.
Qed.

Lemma extends_log_driver_get (url : value) : extends_log (driver_get E url).
Proof.
  apply extends_log_same. intros s. unfold driver_get.
  destruct url; try reflexivity.
  destruct (load (web E s0 (visits s))); reflexivity.
Qed.

Lemma extends_log_retry_internal {A} (f : M A) (more : nat) (delay backoff : Z) :
  extends_log f -> extends_log (retry_internal f more delay backoff).
Proof.
  intros Hf. revert delay. induction more as [|k IH]; intros delay s; simpl;
    destruct (Hf s) as [l1 H1]; destruct (f s) as [[a|e|] s1]; simpl in *;
    try (exists l1; exact H1);
    destruct (is_WebDriverException e); simpl; try (exists l1; exact H1).
  unfold bind at 1. simpl. unfold bind at 1. simpl.
  destruct (IH (delay * backoff) (add_sleep delay (add_log WARNING "retrying" s1)))
    as [l2 H2].
  exists (l1 ++ [(WARNING, "retrying")] ++ l2)%list.
  rewrite H2. simpl. rewrite H1, <- !app_assoc. reflexivity.
Qed.

Lemma extends_log_with_driver {A} (body : DriverPool.driver -> M A) (handler : exn -> M A)
    (final : DriverPool.driver -> M unit) :
  (forall d, extends_log (body d)) -> (forall e, extends_log (handler e)) ->
  (forall d, extends_log (final d)) -> extends_log (with_driver E body handler final).
Proof.
  intros Hb Hh Hf s. unfold with_driver.
  destruct (extends_log_pool_get_driver s) as [l1 H1].
  destruct (pool_get_driver E s) as [[d|e|] s1]; simpl in H1; [| |exists l1; exact H1].
  - destruct (extends_log_try_finally _ _ (extends_log_try_except _ _ (Hb d) Hh) (Hf d) s1)
      as [l2 H2].
    exists (l1 ++ l2)%list. rewrite H2, H1, app_assoc. reflexivity.
  - destruct (Hh e s1) as [l2 H2].
    exists (l1 ++ l2)%list. rewrite H2, H1, app_assoc. reflexivity.
Qed.

Lemma extends_log_sleeps (n : nat) (d : Z) : extends_log (sleeps n d).
Proof.
  induction n as [|n IH]; simpl; [apply extends_log_ret|].
  apply extends_log_bind; [apply extends_log_sleep | intros _; exact IH].
Qed.

Lemma extends_log_find_sizes (pg : page) (selectors acc : list string) :
  extends_log (find_sizes pg selectors acc).
Proof.
  revert acc. induction selectors as [|sel rest IH]; intros acc; simpl;
    [apply extends_log_ret|].
  apply extends_log_bind; [apply extends_log_lift|].
  intros [|x l]; [apply IH | apply extends_log_ret].
Qed.

Create HintDb extends_log.
#[local] Hint Resolve extends_log_ret extends_log_raise extends_log_lift extends_log_check
  extends_log_logm extends_log_sleep extends_log_now extends_log_counters
  extends_log_pool_return_driver extends_log_driver_get extends_log_sleeps
  extends_log_find_sizes : extends_log.

Ltac extends_log_step :=
  first
    [ solve [auto with extends_log]
    | apply extends_log_bind; [|intros ?]
    | apply extends_log_try_except; [|intros ?]
    | apply extends_log_with_driver; intros ?
    | match goal with
      | |- extends_log (if ?b then _ else _) => destruct b
      | |- extends_log (match ?x with _ => _ end) => destruct x
      end ].

Lemma extends_log_get_available_sizes (url : value) :
  extends_log (get_available_sizes E url).
Proof.
  apply extends_log_retry_internal. unfold get_available_sizes_body, _scroll_page.
  repeat extends_log_step.
Qed.

Lemma extends_log_extract_price (pg : page) : extends_log (_extract_price pg).
Proof. unfold _extract_price. repeat extends_log_step. Qed.

#[local] Hint Resolve extends_log_get_available_sizes extends_log_extract_price
  : extends_log.

Lemma logs_error_log_ret {A} (msg : string) : logs_error (logm ERROR msg ;;; @ret (option A) None).
Proof.
  intros s _. exists [(ERROR, msg)]. split; [reflexivity | left; reflexivity].
Qed.

Lemma logs_error_some {A} (m : M (option A)) :
  returns m (fun r => r <> None) -> logs_error m.
Proof.
  intros Hm s Hnone. exfalso.
  destruct (m s) as [r s1] eqn:Hrun. simpl in Hnone. subst r.
  exact (Hm _ _ _ Hrun eq_refl).
Qed.

Lemma logs_error_bind {A B} (m : M A) (k : A -> M (option B)) :
  extends_log m -> (forall a, logs_error (k a)) -> logs_error (bind m k).
Proof.
  intros Hm Hk s. unfold bind. destruct (Hm s) as [l1 H1].
  destruct (m s) as [[a|e|] s1]; simpl in *; try discriminate.
  intros Hnone. destruct (Hk a s1 Hnone) as (l2 & H2 & Herr).
  exists (l1 ++ l2)%list. split; [rewrite H2, H1, app_assoc; reflexivity|].
  rewrite map_app. apply in_or_app. right. exact Herr.
Qed.

Lemma logs_error_try_except {A} (m : M (option A)) (h : exn -> M (option A)) :
  extends_log m -> logs_error m -> (forall e, logs_error (h e)) ->
  logs_error (try_except m h).
Proof.
  intros Hext Hm Hh s. unfold try_except. specialize (Hm s). destruct (Hext s) as [l1 H1].
  destruct (m s) as [[a|e|] s1]; simpl in *; try discriminate; [exact Hm|].
  intros Hnone. destruct (Hh e s1 Hnone) as (l2 & H2 & Herr).
  exists (l1 ++ l2)%list. split; [rewrite H2, H1, app_assoc; reflexivity|].
  rewrite map_app. apply in_or_app. right. exact Herr.
Qed.

Lemma logs_error_try_finally {A} (m : M (option A)) (f : M unit) :
  logs_error m -> extends_log f -> logs_error (try_finally m f).
Proof.
  intros Hm Hf s. unfold try_finally. specialize (Hm s).
  destruct (m s) as [[a|e|] s1]; simpl in *; try discriminate;
    destruct (Hf s1) as [l2 H2]; destruct (f s1) as [[[]|e'|] s2]; simpl in *;
    try discriminate.
  intros Hnone. injection Hnone as ->.
  destruct (Hm eq_refl) as (l1 & H1 & Herr).
  exists (l1 ++ l2)%list. split; [rewrite H2, H1, app_assoc; reflexivity|].
  rewrite map_app. apply in_or_app. left. exact Herr.
Qed.

Lemma logs_error_with_driver {A} (body : DriverPool.driver -> M (option A))
    (handler : exn -> M (option A)) (final : DriverPool.driver -> M unit) :
  (forall d, extends_log (body d)) -> (forall d, logs_error (body d)) ->
  (forall e, logs_error (handler e)) -> (forall d, extends_log (final d)) ->
  logs_error (with_driver E body handler final).
Proof.
  intros Hext Hb Hh Hf s. unfold with_driver.
  destruct (extends_log_pool_get_driver s) as [l1 H1].
  destruct (pool_get_driver E s) as [[d|e|] s1]; simpl in H1; [| |discriminate].
  - intros Hnone.
    destruct (logs_error_try_finally _ _
                (logs_error_try_except _ _ (Hext d) (Hb d) Hh) (Hf d) s1 Hnone)
      as (l2 & H2 & Herr).
    exists (l1 ++ l2)%list. split; [rewrite H2, H1, app_assoc; reflexivity|].
    rewrite map_app. apply in_or_app. right. exact Herr.
  - intros Hnone. destruct (Hh e s1 Hnone) as (l2 & H2 & Herr).
    exists (l1 ++ l2)%list. split; [rewrite H2, H1, app_assoc; reflexivity|].
    rewrite map_app. apply in_or_app. right. exact Herr.
Qed.

(** Every way in which [get_product_details] gives up logs an error. *)
Lemma get_product_details_logs_error (url : value) :
  logs_error (get_product_details E url).
Proof.
  intros s. rewrite get_product_details_once. revert s.
  unfold get_product_details_body.
  apply logs_error_bind; [apply extends_log_logm|]. intros _.
  destruct (negb (truthy url)); [apply logs_error_log_ret|].
  apply logs_error_with_driver.
  - intros d. repeat extends_log_step.
  - intros d. apply logs_error_bind; [apply extends_log_logm|]. intros _.
    apply logs_error_bind; [apply extends_log_driver_get|]. intros pg.
    apply logs_error_bind; [apply extends_log_check|]. intros _.
    destruct (find_name pg name_selectors None) as [[|c n]|];
      try apply logs_error_log_ret.
    apply logs_error_bind; [apply extends_log_extract_price|]. intros price.
    destruct (Py.le price Py.zero); [apply logs_error_log_ret|].
    apply logs_error_some.
    apply returns_bind. intros sizes. apply returns_bind. intros checked.
    apply returns_bind. intros _. apply returns_ret. discriminate.
  - intros e. apply logs_error_log_ret.
  - intros d. apply extends_log_pool_return_driver.
Qed.

End LogFacts.

(** ** Prices *)

Section PriceFacts.

Import ProductTracker.


Lemma extract_price_result (pg : page) (s : state) :
  _extract_price pg s =
  match first_price pg price_selectors with
  | Some price => (Ret price, s)
  | None => (Ret Py.zero, add_log ERROR "Error extracting price" s)
  end.
Proof.
  unfold _extract_price. destruct (first_price pg price_selectors); reflexivity.
Qed.


End PriceFacts.

(** ** The claims about a check *)

Section CycleClaims.

Import ProductTracker Examples.

(** C3.  When the scrape of a tracked product succeeds, [_check_product]
    hands to the sink one threshold notification for each threshold of
    the product whose price is at least the observed price, in the order
    of the rows, and nothing else. *)
Theorem threshold_notification_per_reached_threshold (E : env)
    (row : Database.tracked_product) (s : state) (details : gmap string value) :
  fst (get_product_details E (VStr (Database.url row)) s) = Ret (Some details) ->
  exists price,
    getitem details "price" = inr (VFloat price)
    /\ sent (snd (_check_product E (Database.product_dict row) s))
       = (sent s ++
          List.map (threshold_notification row price)
            (thresholds_reached (Database.id row) price (db s)))%list.
Proof.
  intros Hfound.
  destruct (check_product_after_scrape E row s details Hfound)
    as (name & price & sizes & checked & -> & _ & Hrun).
  exists price. split; [apply details_keys|].
  rewrite Hrun. simpl snd.
  destruct (add_sents_stored
              (List.map (threshold_notification row price)
                 (thresholds_reached (Database.id row) price (db s)))
              (snd (get_product_details E (VStr (Database.url row)) s)))
    as (_ & Hsent & _).
  rewrite Hsent.
  pose proof (keeps_get_product_details E (VStr (Database.url row)) s) as Hkeep.
  injection Hkeep as _ Hs _. rewrite Hs. reflexivity.
Qed.

Lemma threshold_notification_per_reached_threshold_witness :
  exists price,
    getitem (make_details "Shirt" (Py.Fin 80) ["M"; "L"] 1) "price" = inr (VFloat price)
    /\ sent (snd (_check_product (shop "80 TL" ["M"; "L"]) (Database.product_dict shirt)
                    (init (store [threshold_at 1 90; threshold_at 2 70]))))
       = (sent (init (store [threshold_at 1 90; threshold_at 2 70])) ++
          List.map (threshold_notification shirt price)
            (thresholds_reached (Database.id shirt) price
               (db (init (store [threshold_at 1 90; threshold_at 2 70])))))%list.
Proof.
  apply (threshold_notification_per_reached_threshold (shop "80 TL" ["M"; "L"]) shirt
           (init (store [threshold_at 1 90; threshold_at 2 70]))
           (make_details "Shirt" (Py.Fin 80) ["M"; "L"] 1)).
  vm_compute. reflexivity.
Defined.

(** Thresholds at 90 and at 70, new price 80: the notification for 90 and
    no other. *)
Example thresholds_90_70_price_80 :
  sent (snd (_check_product (shop "80 TL" ["M"; "L"]) (Database.product_dict shirt)
               (init (store [threshold_at 1 90; threshold_at 2 70]))))
  = [(VInt 7, ThresholdReached (VStr "Shirt") (VStr shirt_url)
                (VFloat (Py.Fin 90)) (VFloat (Py.Fin 80)))].
Proof. vm_compute. reflexivity. Qed.

(** C7.  When the scrape of a product yields nothing, [_check_product]
    returns normally: the store (prices, history, timestamps) and the sink
    are as before, an error was logged, [is_running] is as it was, and the
    loop over the products goes on: the next product is checked, from the
    state the failed check left. *)
Theorem failed_scrape_skips_product (E : env) (product next : gmap string value)
    (rest : list (gmap string value)) (url : value) (s : state) :
  getitem product "url" = inr url ->
  fst (get_product_details E url s) = Ret None ->
  fst (_check_product E product s) = Ret tt
  /\ db (snd (_check_product E product s)) = db s
  /\ sent (snd (_check_product E product s)) = sent s
  /\ is_running (snd (_check_product E product s)) = is_running s
  /\ (exists entries,
        log (snd (_check_product E product s)) = (log s ++ entries)%list
        /\ In ERROR (List.map fst entries))
  /\ (is_running s = true ->
      check_products E (product :: rest) s
      = check_products E rest (snd (_check_product E product s)))
  /\ (is_running s = true ->
      check_products E (product :: next :: rest) s
      = (_check_product E next ;;; check_products E rest)
          (snd (_check_product E product s))).
Proof.
  intros Hurl Hnone.
  assert (Hloop : forall l, is_running s = true ->
            check_products E (product :: l) s
            = check_products E l (snd (_check_product E product s))).
  { intros l Hrunning. cbn [check_products]. unfold bind at 1. rewrite Hrunning.
    unfold bind at 1.
    rewrite (check_product_after_failure E product url s Hurl Hnone). reflexivity. }
  rewrite (check_product_after_failure E product url s Hurl Hnone) in *.
  simpl fst. simpl snd in *.
  pose proof (keeps_get_product_details E url s) as Hkeep.
  injection Hkeep as Hdb Hsent Hrun.
  split; [reflexivity|]. split; [exact Hdb|]. split; [exact Hsent|].
  split; [exact Hrun|].
  split; [exact (get_product_details_logs_error E url s Hnone)|].
  split; [apply Hloop|].
  intros Hrunning. rewrite (Hloop _ Hrunning).
  cbn [check_products]. unfold bind at 1. rewrite Hrun, Hrunning. reflexivity.
Qed.

Lemma failed_scrape_skips_product_witness :
  fst (_check_product flaky_shop (Database.product_dict shirt) (init (store []))) = Ret tt
  /\ db (snd (_check_product flaky_shop (Database.product_dict shirt) (init (store []))))
     = db (init (store []))
  /\ sent (snd (_check_product flaky_shop (Database.product_dict shirt) (init (store []))))
     = sent (init (store []))
  /\ is_running (snd (_check_product flaky_shop (Database.product_dict shirt)
                        (init (store []))))
     = is_running (init (store []))
  /\ (exists entries,
        log (snd (_check_product flaky_shop (Database.product_dict shirt) (init (store []))))
        = (log (init (store [])) ++ entries)%list
        /\ In ERROR (List.map fst entries))
  /\ (is_running (init (store [])) = true ->
      check_products flaky_shop [Database.product_dict shirt; Database.product_dict shirt]
        (init (store []))
      = check_products flaky_shop [Database.product_dict shirt]
          (snd (_check_product flaky_shop (Database.product_dict shirt) (init (store [])))))
  /\ (is_running (init (store [])) = true ->
      check_products flaky_shop
        [Database.product_dict shirt; Database.product_dict shirt;
         Database.product_dict shirt] (init (store []))
      = (_check_product flaky_shop (Database.product_dict shirt) ;;;
         check_products flaky_shop [Database.product_dict shirt])
          (snd (_check_product flaky_shop (Database.product_dict shirt) (init (store []))))).
Proof.
  apply (failed_scrape_skips_product flaky_shop (Database.product_dict shirt)
           (Database.product_dict shirt)
           [Database.product_dict shirt] (VStr shirt_url) (init (store []))).
  - reflexivity.
  - vm_compute. reflexivity.
Defined.

(** Two failed scrapes in a row: both products were visited. *)
Example failed_scrape_then_next_product :
  visits (snd (check_products flaky_shop
                 [Database.product_dict shirt; Database.product_dict shirt]
                 (init (store [])))) = 2%nat.
Proof. vm_compute. reflexivity. Qed.

End CycleClaims.

(** ** The built-ins on sample texts *)

Example strip_sample : Py.strip "  1.234,56 TL  " = "1.234,56 TL".
Proof. reflexivity. Qed.

Example replace_sample : Py.replace "." "" "1.234.567,8" = "1234567,8".
Proof. reflexivity. Qed.

Example replace_no_overlap : Py.replace "aa" "b" "aaaaa" = "bba".
Proof. reflexivity. Qed.

Example lower_sample : Py.lower "Hepsi" = "hepsi".
Proof. reflexivity. Qed.

Example float_samples :
  Py.float "1234.56" = Some (Py.Fin (30864 # 25))
  /\ Py.float " -1_0.5e1 " = Some (Py.Fin (-105 # 1))
  /\ Py.float "5." = Some (Py.Fin (5 # 1))
  /\ Py.float ".5" = Some (Py.Fin (1 # 2))
  /\ Py.float "-INF" = Some (Py.Inf true)
  /\ Py.float "nan" = Some Py.NaN
  /\ Py.float "12a" = None
  /\ Py.float "" = None
  /\ Py.float "." = None
  /\ Py.float "1__0" = None
  /\ Py.float "1,5" = None.
Proof. repeat split; reflexivity. Qed.

Example parse_price_samples :
  ProductTracker.parse_price "80 TL" = Some (Py.Fin 80)
  /\ ProductTracker.parse_price "1.299,90 TL" = Some (Py.Fin (12999 # 10))
  /\ ProductTracker.parse_price "call us" = None.
Proof. repeat split; reflexivity. Qed.

(** ** URL validation and [add_tracking] *)

Section UrlFacts.

Import ProductTracker.

Lemma str_nil_app (s : string) : ("" ++ s)%string = s.
Proof. reflexivity. Qed.

Lemma str_cons_app (c : ascii) (a b : string) :
  (String c a ++ b)%string = String c (a ++ b)%string.
Proof. reflexivity. Qed.

Lemma after_spec (p s rest : string) :
  after p s = Some rest <-> s = (p ++ rest)%string.
Proof.
  revert s. induction p as [|a p IH]; intros s; cbn [after].
  - rewrite str_nil_app. split; [intros H; injection H as ->; reflexivity | intros ->; reflexivity].
  - rewrite str_cons_app. destruct s as [|b s]; [split; discriminate|].
    destruct (Ascii.eqb_spec a b) as [->|Hne].
    + rewrite IH. split; [intros ->; reflexivity | intros H; injection H as ->; reflexivity].
    + split; [discriminate | intros H; injection H as -> _; contradiction].
Qed.

Lemma skip_any_spec (k : string -> bool) (s : string) :
  skip_any k s = true <->
  exists gap rest, s = (gap ++ rest)%string /\ no_newline gap /\ k rest = true.
Proof.
  induction s as [|c s IH]; cbn [skip_any search].
  - rewrite orb_false_r. split.
    + intros H. exists "", "". repeat split; [intros c []|exact H].
    + intros (gap & rest & Hs & _ & Hk). destruct gap; [|discriminate].
      rewrite ?str_nil_app, ?str_cons_app in Hs. subst rest. exact Hk.
  - rewrite orb_true_iff, andb_true_iff, negb_true_iff, IH. split.
    + intros [Hk|[Hc (gap & rest & -> & Hgap & Hk)]].
      * exists "", (String c s). repeat split; [intros c' []|exact Hk].
      * exists (String c gap), rest. repeat split; [|exact Hk].
        intros c' [<-|Hin]; [|apply Hgap; exact Hin].
        intros ->. discriminate.
    + intros (gap & rest & Hs & Hgap & Hk). destruct gap as [|g gap]; rewrite ?str_nil_app, ?str_cons_app in Hs.
      * left. subst rest. exact Hk.
      * injection Hs as -> ->. right. split.
        -- destruct (Ascii.eqb_spec g "010"%char) as [->|]; [|reflexivity].
           exfalso. apply (Hgap "010"%char); [left|]; reflexivity.
        -- exists gap, rest. repeat split; [|exact Hk].
           intros c' Hin. apply Hgap. right. exact Hin.
Qed.

Lemma search_spec (s : string) :
  search s = true <-> exists before rest, s = (before ++ rest)%string /\ match_here rest = true.
Proof.
  induction s as [|c s IH]; cbn [skip_any search].
  - rewrite orb_false_r. split.
    + intros H. exists "", "". split; [reflexivity | exact H].
    + intros (before & rest & Hs & Hm). destruct before; [|discriminate].
      rewrite ?str_nil_app, ?str_cons_app in Hs. subst rest. exact Hm.
  - rewrite orb_true_iff, IH. split.
    + intros [Hm|(before & rest & -> & Hm)].
      * exists "", (String c s). split; [reflexivity | exact Hm].
      * exists (String c before), rest. split; [reflexivity | exact Hm].
    + intros (before & rest & Hs & Hm). destruct before as [|b before]; rewrite ?str_nil_app, ?str_cons_app in Hs.
      * left. subst rest. exact Hm.
      * injection Hs as -> ->. right. exists before, rest. split; [reflexivity | exact Hm].
Qed.

Lemma valid_url_shape (url : string) :
  _is_valid_trendyol_url url = true <->
  exists before shop item digit rest,
    Py.lower url
    = (before ++ "trendyol.com/" ++ shop ++ "/" ++ item ++ "-p-" ++ String digit rest)%string
    /\ no_newline shop /\ no_newline item /\ is_digit digit.
Proof.
  unfold _is_valid_trendyol_url. rewrite search_spec. split.
  - intros (before & r0 & Hs & Hm). unfold match_here in Hm.
    destruct (after "trendyol.com/" r0) as [r1|] eqn:H1; [|discriminate].
    apply after_spec in H1. apply skip_any_spec in Hm.
    destruct Hm as (shop & r2 & -> & Hshop & Hp). unfold path_here in Hp.
    destruct (after "/" r2) as [r3|] eqn:H2; [|discriminate].
    apply after_spec in H2. apply skip_any_spec in Hp.
    destruct Hp as (item & r4 & -> & Hitem & Hid). unfold product_id_here in Hid.
    destruct (after "-p-" r4) as [[|d r5]|] eqn:H3; try discriminate.
    apply after_spec in H3.
    destruct (Py.digit_of d) as [v|] eqn:Hd; [|discriminate].
    exists before, shop, item, d, r5. subst. repeat split; try assumption.
    exists v. exact Hd.
  - intros (before & shop & item & d & rest & Hs & Hshop & Hitem & (v & Hd)).
    exists before, ("trendyol.com/" ++ shop ++ "/" ++ item ++ "-p-" ++ String d rest)%string.
    split; [exact Hs|]. unfold match_here.
    rewrite (proj2 (after_spec "trendyol.com/" _ _) eq_refl).
    apply skip_any_spec. exists shop, ("/" ++ item ++ "-p-" ++ String d rest)%string.
    repeat split; [exact Hshop|]. unfold path_here.
    rewrite (proj2 (after_spec "/" _ _) eq_refl).
    apply skip_any_spec. exists item, ("-p-" ++ String d rest)%string.
    repeat split; [exact Hitem|]. unfold product_id_here.
    rewrite (proj2 (after_spec "-p-" _ _) eq_refl). rewrite Hd. reflexivity.
Qed.

End UrlFacts.

Section UrlClaims.

Import ProductTracker.

Lemma lower_char_idempotent (c : ascii) : Py.lower_char (Py.lower_char c) = Py.lower_char c.
Proof.
  destruct c as [[] [] [] [] [] [] [] []]; reflexivity.
Qed.

Lemma lower_idempotent (s : string) : Py.lower (Py.lower s) = Py.lower s.
Proof.
  induction s as [|c s IH]; simpl; [reflexivity|].
  rewrite lower_char_idempotent, IH. reflexivity.
Qed.

Lemma lower_app (a b : string) : Py.lower (a ++ b) = (Py.lower a ++ Py.lower b)%string.
Proof.
  induction a as [|c a IH]; [reflexivity|].
  rewrite str_cons_app. cbn [Py.lower]. rewrite IH, str_cons_app. reflexivity.
Qed.

Lemma str_app_assoc (a b c : string) : ((a ++ b) ++ c)%string = (a ++ b ++ c)%string.
Proof.
  induction a as [|x a IH]; [reflexivity|].
  rewrite !str_cons_app, IH. reflexivity.
Qed.

(** X1.  [_is_valid_trendyol_url] accepts a text exactly when its
    lower-cased form contains [trendyol.com/], then a [/], then [-p-] and
    a digit, with no newline between the three. *)
Theorem valid_url_iff_shape (url : string) :
  _is_valid_trendyol_url url = true <->
  exists before shop item digit rest,
    Py.lower url
    = (before ++ "trendyol.com/" ++ shop ++ "/" ++ item ++ "-p-" ++ String digit rest)%string
    /\ no_newline shop /\ no_newline item /\ is_digit digit.
Proof. apply valid_url_shape. Qed.

(** X2.  The validation ignores case, and it searches: a text that
    contains a valid URL anywhere is accepted too. *)
Theorem valid_url_case_and_context (url before rest : string) :
  _is_valid_trendyol_url (Py.lower url) = _is_valid_trendyol_url url
  /\ (_is_valid_trendyol_url url = true ->
      _is_valid_trendyol_url (before ++ url ++ rest) = true).
Proof.
  split.
  - unfold _is_valid_trendyol_url. rewrite lower_idempotent. reflexivity.
  - intros Hvalid. apply valid_url_shape in Hvalid.
    destruct Hvalid as (b & shop & item & d & r & Hs & Hshop & Hitem & Hd).
    apply valid_url_shape.
    exists (Py.lower before ++ b)%string, shop, item, d, (r ++ Py.lower rest)%string.
    repeat split; try assumption.
    rewrite !lower_app, Hs. rewrite !str_app_assoc. reflexivity.
Qed.

Lemma valid_url_case_and_context_witness :
  _is_valid_trendyol_url
    ("http://example.com/?next=" ++ "https://www.trendyol.com/marka/urun-p-1234567" ++ "&x=1")
  = true.
Proof.
  apply (valid_url_case_and_context "https://www.trendyol.com/marka/urun-p-1234567"
           "http://example.com/?next=" "&x=1").
  reflexivity.
Defined.

End UrlClaims.

Section AddTrackingFacts.

Import ProductTracker.



(** A valid URL whose page shows the shirt at 80: the row is stored. *)
Example add_tracking_stores_row :
  Database.tracked_products
    (db (snd (add_tracking (Examples.shop "80 TL" ["M"; "L"]) 9 Examples.shirt_url "L"
                (init Database.empty))))
  = [{| Database.id := 1; Database.user_id := 9; Database.url := Examples.shirt_url;
        Database.size := "L"; Database.last_price := Py.Fin 80;
        Database.product_name := "Shirt";
        Database.last_check := 1; Database.created_at := 1 |}].
Proof. vm_compute. reflexivity. Qed.

End AddTrackingFacts.

(** ** The store: keys, inserts and updates *)

Section DatabaseClaims.

Import Database.

Lemma NoDup_snoc {A} (l : list A) (x : A) :
  List.NoDup l -> ~ In x l -> List.NoDup (l ++ [x]).
Proof.
  intros Hl Hx. induction l as [|y l IH]; simpl.
  - apply List.NoDup_cons_iff. split; [intros []|constructor].
  - apply List.NoDup_cons_iff in Hl. destruct Hl as [Hy Hl].
    apply List.NoDup_cons_iff. split.
    + rewrite in_app_iff. intros [Hin|[->|[]]]; [contradiction|].
      apply Hx. left. reflexivity.
    + apply IH; [exact Hl|]. intros Hin. apply Hx. right. exact Hin.
Qed.

Lemma NoDup_map_filter {A} (f : A -> Z) (g : A -> bool) (l : list A) :
  List.NoDup (List.map f l) -> List.NoDup (List.map f (List.filter g l)).
Proof.
  induction l as [|x l IH]; simpl; [trivial|].
  intros Hnd. apply List.NoDup_cons_iff in Hnd. destruct Hnd as [Hx Hl].
  destruct (g x); simpl; [|exact (IH Hl)].
  apply List.NoDup_cons_iff. split; [|exact (IH Hl)].
  intros Hin. apply Hx. apply in_map_iff in Hin. destruct Hin as (y & Hy & Hin).
  apply filter_In in Hin. apply in_map_iff. exists y. tauto.
Qed.

Lemma map_id_set_price (p : Z) (price : Py.pyfloat) (now : Z) (rows : list tracked_product) :
  List.map id (List.map (set_price p price now) rows) = List.map id rows.
Proof.
  rewrite List.map_map. apply List.map_ext. intros r. unfold set_price.
  destruct (id r =? p); reflexivity.
Qed.

(** X4.  The operations of the store keep the primary keys apart and
    below the AUTOINCREMENT counters: starting from the empty store,
    whatever is added, deleted or updated, no two tracked products and no
    two history rows share an id. *)
Theorem store_keys_stay_unique (d : Database.t) (user : Z) (purl psize : string)
    (price : Py.pyfloat) (name : string) (now product : Z) :
  well_formed Database.empty
  /\ (well_formed d ->
      well_formed (snd (add_tracked_product user purl psize price name now d))
      /\ well_formed (snd (delete_product user product d))
      /\ well_formed (update_product_price product price now d)).
Proof.
  split.
  { repeat split; simpl; constructor. }
  intros (Hnd & Hle & Hhnd & Hhle). repeat split; simpl; try assumption.
  - rewrite List.map_app. apply NoDup_snoc; [exact Hnd|].
    intros Hin. apply in_map_iff in Hin. destruct Hin as (r & Heq & Hin).
    rewrite List.Forall_forall in Hle. specialize (Hle r Hin). simpl in Heq. lia.
  - apply Forall_app. split.
    + eapply List.Forall_impl; [|exact Hle]. simpl. intros r Hr. lia.
    + constructor; [simpl; lia | constructor].
  - apply NoDup_map_filter. exact Hnd.
  - rewrite List.Forall_forall in *. intros r Hin. apply filter_In in Hin. apply Hle. tauto.
  - rewrite map_id_set_price. exact Hnd.
  - rewrite List.Forall_forall in *. intros r Hin. apply in_map_iff in Hin.
    destruct Hin as (r0 & <- & Hin). specialize (Hle r0 Hin).
    unfold set_price. destruct (id r0 =? product); simpl; exact Hle.
  - rewrite List.map_app. apply NoDup_snoc; [exact Hhnd|].
    intros Hin. apply in_map_iff in Hin. destruct Hin as (r & Heq & Hin).
    rewrite List.Forall_forall in Hhle. specialize (Hhle r Hin). simpl in Heq. lia.
  - apply Forall_app. split.
    + eapply List.Forall_impl; [|exact Hhle]. simpl. intros r Hr. lia.
    + constructor; [simpl; lia | constructor].
Qed.

Lemma store_keys_stay_unique_witness :
  well_formed (snd (add_tracked_product 7 "u" "M" (Py.Fin 80) "Shirt" 0 Database.empty))
  /\ well_formed (snd (delete_product 7 1 Database.empty))
  /\ well_formed (update_product_price 1 (Py.Fin 80) 0 Database.empty).
Proof.
  destruct (store_keys_stay_unique Database.empty 7 "u" "M" (Py.Fin 80) "Shirt" 0 1)
    as [Hempty Hkept].
  exact (Hkept Hempty).
Defined.

Lemma filter_keeps_all {A} (g : A -> bool) (l : list A) :
  (forall x, In x l -> g x = true) -> List.filter g l = l.
Proof.
  induction l as [|x l IH]; simpl; [reflexivity|].
  intros H. rewrite (H x (or_introl eq_refl)). f_equal. apply IH.
  intros y Hy. apply H. right. exact Hy.
Qed.

Lemma filter_drops_all {A} (g : A -> bool) (l : list A) :
  (forall x, In x l -> g x = false) -> List.filter g l = [].
Proof.
  induction l as [|x l IH]; simpl; [reflexivity|].
  intros H. rewrite (H x (or_introl eq_refl)). apply IH.
  intros y Hy. apply H. right. exact Hy.
Qed.

(** X5.  The id given to a new tracked product is above the id of every
    product in the table, also right after a deletion: the id of a
    deleted product is not given out again. *)
Theorem new_product_id_is_fresh (d : Database.t) (user : Z) (purl psize : string)
    (price : Py.pyfloat) (name : string) (now u p : Z) (r : tracked_product) :
  well_formed d ->
  In r (tracked_products d) ->
  id r < fst (add_tracked_product user purl psize price name now d)
  /\ id r < fst (add_tracked_product user purl psize price name now
                   (snd (delete_product u p d))).
Proof.
  intros (_ & Hle & _) Hin. rewrite List.Forall_forall in Hle. specialize (Hle r Hin).
  simpl. lia.
Qed.

Lemma example_store_well_formed : well_formed (Examples.store []).
Proof.
  repeat split; simpl.
  - constructor; [intros []|constructor].
  - constructor; [simpl; lia|constructor].
  - constructor.
  - constructor.
Qed.

Lemma new_product_id_is_fresh_witness :
  id Examples.shirt
  < fst (add_tracked_product 9 "u" "L" (Py.Fin 50) "Hat" 3 (Examples.store []))
  /\ id Examples.shirt
     < fst (add_tracked_product 9 "u" "L" (Py.Fin 50) "Hat" 3
              (snd (delete_product 7 1 (Examples.store [])))).
Proof.
  apply (new_product_id_is_fresh (Examples.store []) 9 "u" "L" (Py.Fin 50) "Hat" 3 7 1
           Examples.shirt).
  - exact example_store_well_formed.
  - left. reflexivity.
Defined.

(** X6.  Adding a tracked product and deleting it again as the same user
    gives back the store as it was, but for the counter of ids; deleting
    it as another user is refused and keeps the row. *)
Theorem add_then_delete (d : Database.t) (user other : Z) (purl psize : string)
    (price : Py.pyfloat) (name : string) (now : Z) :
  well_formed d ->
  delete_product user (fst (add_tracked_product user purl psize price name now d))
    (snd (add_tracked_product user purl psize price name now d))
  = (true,
     {| tracked_products := tracked_products d;
        price_history := price_history d;
        price_thresholds := price_thresholds d;
        seq_tracked_products := seq_tracked_products d + 1;
        seq_price_history := seq_price_history d |})
  /\ (other <> user ->
      delete_product other (fst (add_tracked_product user purl psize price name now d))
        (snd (add_tracked_product user purl psize price name now d))
      = (false, snd (add_tracked_product user purl psize price name now d))).
Proof.
  intros (_ & Hle & _). rewrite List.Forall_forall in Hle.
  assert (Hold : forall o x, In x (tracked_products d) ->
                   delete_where (seq_tracked_products d + 1) o x = false).
  { intros o x Hx. unfold delete_where. specialize (Hle x Hx).
    destruct (Z.eqb_spec (id x) (seq_tracked_products d + 1)); [lia | reflexivity]. }
  split.
  - unfold delete_product. simpl.
    rewrite !List.filter_app. simpl.
    unfold delete_where at 2 4. simpl. rewrite !Z.eqb_refl. simpl.
    rewrite (filter_drops_all _ _ (Hold user)).
    rewrite filter_keeps_all; [rewrite app_nil_r; reflexivity|].
    intros x Hx. rewrite (Hold user x Hx). reflexivity.
  - intros Hother. unfold delete_product. simpl.
    rewrite !List.filter_app. simpl.
    unfold delete_where at 2 4. simpl. apply Z.eqb_neq in Hother.
    rewrite Z.eqb_refl, (Z.eqb_sym user other), Hother. simpl.
    rewrite (filter_drops_all _ _ (Hold other)).
    rewrite filter_keeps_all; [reflexivity|].
    intros x Hx. rewrite (Hold other x Hx). reflexivity.
Qed.

Lemma add_then_delete_witness :
  delete_product 9 (fst (add_tracked_product 9 "u" "L" (Py.Fin 50) "Hat" 3 (Examples.store [])))
    (snd (add_tracked_product 9 "u" "L" (Py.Fin 50) "Hat" 3 (Examples.store [])))
  = (true,
     {| tracked_products := [Examples.shirt]; price_history := []; price_thresholds := [];
        seq_tracked_products := 2; seq_price_history := 0 |})
  /\ (7 <> 9 ->
      delete_product 7
        (fst (add_tracked_product 9 "u" "L" (Py.Fin 50) "Hat" 3 (Examples.store [])))
        (snd (add_tracked_product 9 "u" "L" (Py.Fin 50) "Hat" 3 (Examples.store [])))
      = (false, snd (add_tracked_product 9 "u" "L" (Py.Fin 50) "Hat" 3 (Examples.store [])))).
Proof.
  apply (add_then_delete (Examples.store []) 9 7 "u" "L" (Py.Fin 50) "Hat" 3).
  exact example_store_well_formed.
Defined.

(** X7.  [update_product_price] sets the price and the time of the check
    on the rows with the given id, keeps every other row and the order of
    the rows, and appends one history row; it does not check that the
    product exists: for an unknown id the products are unchanged and the
    history row is written all the same. *)
Theorem update_price_effect (p : Z) (price : Py.pyfloat) (now : Z) (d : Database.t) :
  price_history (update_product_price p price now d)
  = (price_history d ++
     [{| ph_id := seq_price_history d + 1; ph_product_id := p;
         ph_price := price; ph_checked_at := now |}])%list
  /\ List.map id (tracked_products (update_product_price p price now d))
     = List.map id (tracked_products d)
  /\ (forall r, In r (tracked_products (update_product_price p price now d)) ->
        id r = p -> last_price r = price /\ last_check r = now)
  /\ (forall r, In r (tracked_products d) -> id r <> p ->
        In r (tracked_products (update_product_price p price now d)))
  /\ ((forall r, In r (tracked_products d) -> id r <> p) ->
      tracked_products (update_product_price p price now d) = tracked_products d).
Proof.
  destruct (update_product_price_spec p price now d) as (H1 & H2 & H3 & H4).
  repeat split; try assumption; try (apply H3; assumption).
  intros Hnone. simpl. rewrite <- (List.map_id (tracked_products d)) at 2.
  apply List.map_ext_in. intros r Hin. unfold set_price.
  specialize (Hnone r Hin). apply Z.eqb_neq in Hnone. rewrite Hnone. reflexivity.
Qed.

Lemma update_price_effect_witness :
  tracked_products (update_product_price 5 (Py.Fin 80) 9 (Examples.store []))
  = tracked_products (Examples.store [])
  /\ length (price_history (update_product_price 5 (Py.Fin 80) 9 (Examples.store []))) = 1%nat.
Proof.
  split; [|reflexivity].
  apply (update_price_effect 5 (Py.Fin 80) 9 (Examples.store [])).
  intros r [<-|[]]. simpl. lia.
Defined.

End DatabaseClaims.

(** ** The rate limit *)

Section RateLimitFacts.

Import UserStats Bot.












(** X11.  The counting is per user: the requests of one user leave the row
    of every other user as it is. *)
Theorem requests_leave_other_users (user other : Z) (times : list Z) (t : gmap Z row) :
  other <> user ->
  snd (requests user times t) !! other = t !! other.
Proof.
  intros Hother. revert t. induction times as [|now rest IH]; intros t; [reflexivity|].
  cbn [requests].
  assert (Hstep : snd (rate_limit user now now t) !! other = t !! other).
  { unfold rate_limit, update_user_stats.
    destruct (RATE_LIMIT <=? _); [reflexivity|]. simpl.
    destruct (t !! user); apply lookup_insert_ne; congruence. }
  destruct (rate_limit user now now t) as [served t1]. simpl in Hstep.
  specialize (IH t1). destruct (requests user rest t1) as [more t2]. simpl in *.
  rewrite IH. exact Hstep.
Qed.

Lemma requests_leave_other_users_witness :
  snd (requests 7 [0; 1; 2] (<[8 := {| request_count := 5; last_request := 0 |}]> ∅)) !! 8
  = (<[8 := {| request_count := 5; last_request := 0 |}]> ∅ : gmap Z row) !! 8.
Proof.
  apply (requests_leave_other_users 7 8 [0; 1; 2]). lia.
Defined.

End RateLimitFacts.

(** ** The pool: who holds a session *)

Section PoolClaims.

Import DriverPool.

(** X12.  While calls run one at a time, a session is never in two hands:
    the idle sessions and the sessions handed out are all different, each
    of them was launched by the pool, and none of them has been quit. *)
Theorem sessions_are_exclusive (max : Z) (p : DriverPool.t) (h : list driver) :
  Serial.reachable max p h ->
  List.NoDup (drivers p ++ h)
  /\ (forall d, In d (drivers p ++ h) -> (d < launched p)%nat /\ ~ In d (quitted p))
  /\ (forall d, In d (quitted p) -> (d < launched p)%nat).
Proof.
  induction 1 as [|edge p h d p' _ IH Hget|p h1 d h2 _ IH|p h _ IH].
  - simpl. split; [constructor|]. split; intros d [].
  - destruct IH as (Hnd & Hin & Hq). unfold get_driver in Hget.
    destruct (drivers p) as [|d0 q] eqn:Hdrivers.
    + destruct (active_drivers p <? max_drivers p); [|discriminate].
      destruct edge; [discriminate|]. inversion Hget; subst d p'; clear Hget.
      simpl in *. rewrite Hdrivers. simpl. split; [|split].
      * apply List.NoDup_cons_iff. split; [|exact Hnd].
        intros Hd. apply Hin in Hd. lia.
      * intros d [<-|Hd].
        -- split; [lia|]. intros Hquit. apply Hq in Hquit. lia.
        -- destruct (Hin d Hd). split; [lia | assumption].
      * intros d Hd. apply Hq in Hd. lia.
    + inversion Hget; subst d0 p'; clear Hget. simpl in *. split; [|split].
      * apply (Permutation_NoDup (l := d :: q ++ h)); [apply Permutation_middle | exact Hnd].
      * intros d' Hd'. apply Hin.
        change (In d' (d :: q ++ h)).
        apply (Permutation_in (l := q ++ d :: h)); [|exact Hd'].
        symmetry. apply Permutation_middle.
      * exact Hq.
  - destruct IH as (Hnd & Hin & Hq).
    assert (Hperm : Permutation (drivers p ++ h1 ++ d :: h2) ((drivers p ++ [d]) ++ h1 ++ h2)).
    { rewrite <- app_assoc. apply Permutation_app_head. simpl.
      symmetry. apply Permutation_middle. }
    simpl. split; [|split].
    + apply (Permutation_NoDup Hperm Hnd).
    + intros d' Hd'. apply Hin. apply (Permutation_in (l := (drivers p ++ [d]) ++ h1 ++ h2));
        [symmetry; exact Hperm | exact Hd'].
    + exact Hq.
  - destruct IH as (Hnd & Hin & Hq). rewrite cleanup_eq. simpl. split; [|split].
    + apply List.NoDup_app_remove_l in Hnd. exact Hnd.
    + intros d Hd. assert (Hd' : In d (drivers p ++ h)) by (apply in_or_app; right; exact Hd).
      destruct (Hin d Hd') as [Hlt Hnq]. split; [exact Hlt|].
      rewrite in_app_iff. intros [Hquit|Hidle]; [contradiction|].
      clear - Hnd Hidle Hd. induction (drivers p) as [|x l IHl]; [destruct Hidle|].
      simpl in Hnd. apply List.NoDup_cons_iff in Hnd. destruct Hnd as [Hx Hl].
      destruct Hidle as [->|Hidle]; [|exact (IHl Hl Hidle)].
      apply Hx. apply in_or_app. right. exact Hd.
    + intros d Hd. apply in_app_iff in Hd. destruct Hd as [Hd|Hd]; [exact (Hq d Hd)|].
      apply Hin. apply in_or_app. left. exact Hd.
Qed.

Lemma sessions_are_exclusive_witness :
  List.NoDup (drivers Examples.three_out ++ [2; 1; 0]%nat)
  /\ (forall d, In d (drivers Examples.three_out ++ [2; 1; 0]%nat) ->
        (d < launched Examples.three_out)%nat /\ ~ In d (quitted Examples.three_out))
  /\ (forall d, In d (quitted Examples.three_out) -> (d < launched Examples.three_out)%nat).
Proof.
  apply (sessions_are_exclusive 3 Examples.three_out [2; 1; 0]%nat).
  apply (Serial.reach_get 3 None
           (snd (get_driver None (snd (get_driver None default)))) [1; 0]%nat);
    [|reflexivity].
  apply (Serial.reach_get 3 None (snd (get_driver None default)) [0]%nat);
    [|reflexivity].
  apply (Serial.reach_get 3 None default []); [|reflexivity].
  apply Serial.reach_init.
Defined.

End PoolClaims.

(** ** Scraping: sessions are given back *)

Section SessionFacts.

Import ProductTracker.

Variable E : env.

Lemma shifts_same_pool {A} (m : M A) :
  (forall s, pool (snd (m s)) = pool s) -> shifts 0 m.
Proof. intros H s _. rewrite H, Z.add_0_r. split; reflexivity. Qed.

Lemma balanced_bind {A B} (m : M A) (f : A -> M B) :
  shifts 0 m -> (forall a, shifts 0 (f a)) -> shifts 0 (bind m f).
Proof.
  intros Hm Hf s. unfold bind. specialize (Hm s).
  destruct (m s) as [[a|e|] s1]; simpl in *.
  - intros Hk. destruct (Hm ltac:(discriminate)) as [H1 H2].
    destruct (Hf a s1 Hk) as [H3 H4]. rewrite H3, H4, H1, H2. split; [lia | reflexivity].
  - intros _. apply Hm. discriminate.
  - intros H. contradiction.
Qed.

Lemma balanced_try_except {A} (m : M A) (h : exn -> M A) :
  shifts 0 m -> (forall e, shifts 0 (h e)) -> shifts 0 (try_except m h).
Proof.
  intros Hm Hh s. unfold try_except. specialize (Hm s).
  destruct (m s) as [[a|e|] s1]; simpl in *.
  - intros _. apply Hm. discriminate.
  - intros Hk. destruct (Hm ltac:(discriminate)) as [H1 H2].
    destruct (Hh e s1 Hk) as [H3 H4]. rewrite H3, H4, H1, H2. split; [lia | reflexivity].
  - intros H. contradiction.
Qed.

Lemma shifts_try_finally {A} (k : Z) (m : M A) (f : M unit) :
  shifts 0 m -> shifts k f -> shifts k (try_finally m f).
Proof.
  intros Hm Hf s. unfold try_finally. specialize (Hm s).
  destruct (m s) as [[a|e|] s1]; simpl in *; [| |intros H; contradiction];
    destruct (Hm ltac:(discriminate)) as [H1 H2]; specialize (Hf s1);
    destruct (f s1) as [[[]|e'|] s2]; simpl in *; intros Hk; try contradiction;
    destruct (Hf ltac:(discriminate)) as [H3 H4]; rewrite H3, H4, H1, H2;
    (split; [lia | reflexivity]).
Qed.

Lemma shifts_pool_get_driver (s : state) (d : DriverPool.driver) (s1 : state) :
  pool_get_driver E s = (Ret d, s1) ->
  handed_out (pool s1) = handed_out (pool s) + 1
  /\ DriverPool.max_drivers (pool s1) = DriverPool.max_drivers (pool s).
Proof.
  unfold pool_get_driver, DriverPool.get_driver, handed_out.
  destruct (DriverPool.drivers (pool s)) as [|d0 q] eqn:Hq.
  - destruct (DriverPool.active_drivers (pool s) <? DriverPool.max_drivers (pool s));
      [|discriminate].
    destruct (edge E); [discriminate|]. simpl.
    destruct (Nat.ltb _ _); intros H; inversion H; subst; simpl; rewrite ?Hq; simpl;
      (split; [lia | reflexivity]).
  - simpl. destruct (Nat.ltb _ _); intros H; inversion H; subst; simpl;
      (split; [lia | reflexivity]).
Qed.

Lemma pool_get_driver_raise (s : state) (e : exn) (s1 : state) :
  pool_get_driver E s = (Raise e, s1) -> pool s1 = pool s.
Proof.
  unfold pool_get_driver, DriverPool.get_driver.
  destruct (DriverPool.drivers (pool s)) as [|d0 q].
  - destruct (_ <? _); [|discriminate]. destruct (edge E); [|simpl; destruct (Nat.ltb _ _); discriminate].
    intros H. inversion H. reflexivity.
  - simpl. destruct (Nat.ltb _ _); discriminate.
Qed.

Lemma shifts_pool_return_driver (d : DriverPool.driver) : shifts (-1) (pool_return_driver d).
Proof.
  intros s _. unfold pool_return_driver, handed_out. simpl.
  rewrite length_app. simpl. split; [lia | reflexivity].
Qed.

(** The shape of both scraping methods gives the session back. *)
Lemma balanced_with_driver {A} (body : DriverPool.driver -> M A) (handler : exn -> M A) :
  (forall d, shifts 0 (body d)) -> (forall e, shifts 0 (handler e)) ->
  shifts 0 (with_driver E body handler pool_return_driver).
Proof.
  intros Hb Hh s. unfold with_driver.
  destruct (pool_get_driver E s) as [[d|e|] s1] eqn:Hget.
  - intros Hk.
    destruct (shifts_pool_get_driver s d s1 Hget) as [H1 H2].
    destruct (shifts_try_finally (-1) _ _ (balanced_try_except _ _ (Hb d) Hh)
                (shifts_pool_return_driver d) s1 Hk) as [H3 H4].
    rewrite H3, H4, H1, H2. split; [lia | reflexivity].
  - intros Hk. destruct (Hh e s1 Hk) as [H3 H4].
    rewrite H3, H4, (pool_get_driver_raise s e s1 Hget). split; [lia | reflexivity].
  - simpl. intros H. contradiction.
Qed.

Lemma balanced_ret {A} (a : A) : shifts 0 (ret a).
Proof. apply shifts_same_pool. reflexivity. Qed.

Lemma balanced_raise {A} (e : exn) : shifts 0 (@raise A e).
Proof. apply shifts_same_pool. reflexivity. Qed.

Lemma balanced_lift {A} (r : exn + A) : shifts 0 (lift r).
Proof. destruct r; apply shifts_same_pool; reflexivity. Qed.

Lemma balanced_check (r : option exn) : shifts 0 (check r).
Proof. destruct r; apply shifts_same_pool; reflexivity. Qed.

Lemma balanced_logm (l : level) (msg : string) : shifts 0 (logm l msg).
Proof. apply shifts_same_pool. reflexivity. Qed.

Lemma balanced_sleep (d : Z) : shifts 0 (sleep d).
Proof. apply shifts_same_pool. reflexivity. Qed.

Lemma balanced_now : shifts 0 now.
Proof. apply shifts_same_pool. reflexivity. Qed.

Lemma balanced_counters (a b c : nat) :
  shifts 0 (fun s => (Ret tt, add_counters a b c s)).
Proof. apply shifts_same_pool. reflexivity. Qed.

Lemma balanced_driver_get (url : value) : shifts 0 (driver_get E url).
Proof.
  apply shifts_same_pool. intros s. unfold driver_get. destruct url; try reflexivity.
  destruct (load (web E s0 (visits s))); reflexivity.
Qed.

Lemma balanced_sleeps (n : nat) (d : Z) : shifts 0 (sleeps n d).
Proof.
  induction n as [|n IH]; simpl; [apply balanced_ret|].
  apply balanced_bind; [apply balanced_sleep | intros _; exact IH].
Qed.

Lemma balanced_find_sizes (pg : page) (selectors acc : list string) :
  shifts 0 (find_sizes pg selectors acc).
Proof.
  revert acc. induction selectors as [|sel rest IH]; intros acc; simpl;
    [apply balanced_ret|].
  apply balanced_bind; [apply balanced_lift|].
  intros [|x l]; [apply IH | apply balanced_ret].
Qed.

Create HintDb balanced.
#[local] Hint Resolve balanced_ret balanced_raise balanced_lift balanced_check
  balanced_logm balanced_sleep balanced_now balanced_counters balanced_driver_get
  balanced_sleeps balanced_find_sizes : balanced.

Ltac balanced_step :=
  first
    [ solve [auto with balanced]
    | apply balanced_bind; [|intros ?]
    | apply balanced_try_except; [|intros ?]
    | apply balanced_with_driver; intros ?
    | match goal with
      | |- shifts 0 (if ?b then _ else _) => destruct b
      | |- shifts 0 (match ?x with _ => _ end) => destruct x
      end ].

Lemma balanced_get_available_sizes (url : value) : shifts 0 (get_available_sizes E url).
Proof.
  intros s. rewrite get_available_sizes_once. revert s.
  unfold get_available_sizes_body, _scroll_page.
  repeat balanced_step.
Qed.

Lemma balanced_extract_price (pg : page) : shifts 0 (_extract_price pg).
Proof. unfold _extract_price. repeat balanced_step. Qed.

#[local] Hint Resolve balanced_get_available_sizes balanced_extract_price : balanced.

Lemma balanced_get_product_details (url : value) : shifts 0 (get_product_details E url).
Proof.
  intros s. rewrite get_product_details_once. revert s.
  unfold get_product_details_body.
  repeat balanced_step.
Qed.

Lemma balanced_test_driver : shifts 0 (test_driver E).
Proof. unfold test_driver. repeat balanced_step. Qed.

End SessionFacts.

Section SessionClaims.

Import ProductTracker.

(** X13.  Neither scraping method ever raises, whatever the browser does:
    each catches every exception itself.  The [retry] decorator therefore
    never sees a failure, and a decorated method is its body, run once. *)
Theorem scraping_never_raises_and_runs_once (E : env) (url : value) (s : state) :
  (forall e, fst (get_product_details E url s) <> Raise e)
  /\ (forall e, fst (get_available_sizes E url s) <> Raise e)
  /\ (forall e, fst (test_driver E s) <> Raise e)
  /\ get_product_details E url s = get_product_details_body E url s
  /\ get_available_sizes E url s = get_available_sizes_body E url s.
Proof.
  split; [|split; [|split; [|split]]].
  - intros e. rewrite get_product_details_once.
    apply get_product_details_body_never_raises.
  - intros e. rewrite get_available_sizes_once.
    apply get_available_sizes_body_never_raises.
  - intros e. unfold test_driver. apply never_raises_with_driver.
    + intros e'. apply never_raises_log_ret.
    + apply never_raises_return_driver.
  - apply get_product_details_once.
  - apply get_available_sizes_once.
Qed.

(** X14.  A scraping call that comes back has given back every session it
    acquired, on every path, exceptions included: as many sessions are
    handed out after the call as before it. *)
Theorem sessions_are_given_back (E : env) (url : value) (s : state) :
  (fst (get_product_details E url s) <> Hang ->
   handed_out (pool (snd (get_product_details E url s))) = handed_out (pool s))
  /\ (fst (get_available_sizes E url s) <> Hang ->
      handed_out (pool (snd (get_available_sizes E url s))) = handed_out (pool s))
  /\ (fst (test_driver E s) <> Hang ->
      handed_out (pool (snd (test_driver E s))) = handed_out (pool s)).
Proof.
  split; [|split]; intros Hback.
  - destruct (balanced_get_product_details E url s Hback) as [H _]. lia.
  - destruct (balanced_get_available_sizes E url s Hback) as [H _]. lia.
  - destruct (balanced_test_driver E s Hback) as [H _]. lia.
Qed.

Lemma sessions_are_given_back_witness :
  handed_out (pool (snd (get_product_details Examples.flaky_shop (VStr Examples.shirt_url)
                           (init (Examples.store [])))))
  = handed_out (pool (init (Examples.store []))).
Proof.
  apply (sessions_are_given_back Examples.flaky_shop (VStr Examples.shirt_url)
           (init (Examples.store []))).
  vm_compute. discriminate.
Defined.

(** X15.  [get_product_details] keeps its session while it calls
    [get_available_sizes], which asks the pool for a second one.  When the
    pool can hand out one session and not two, a scrape that gets as far
    as a name and a valid price blocks on the second request, with the
    first session still handed out. *)
Theorem scrape_needs_two_sessions (E : env) (u : string) (s : state)
    (d : DriverPool.driver) (c : ascii) (n : string) (price : Py.pyfloat) :
  u <> "" ->
  fst (DriverPool.get_driver (edge E) (pool s)) = Ret d ->
  fst (DriverPool.get_driver (edge E) (snd (DriverPool.get_driver (edge E) (pool s)))) = Hang ->
  load (web E u (visits s)) = None ->
  body_wait (web E u (visits s)) = None ->
  find_name (web E u (visits s)) name_selectors None = Some (String c n) ->
  first_price (web E u (visits s)) price_selectors = Some price ->
  Py.le price Py.zero = false ->
  fst (get_product_details E (VStr u) s) = Hang
  /\ pool (snd (get_product_details E (VStr u) s))
     = snd (DriverPool.get_driver (edge E) (pool s)).
Proof.
  intros Hu Hfirst Hsecond Hload Hbody Hname Hprice Hpos.
  assert (Hrun : exists s', get_product_details E (VStr u) s = (Hang, s')
                            /\ pool s' = snd (DriverPool.get_driver (edge E) (pool s))).
  { rewrite get_product_details_once.
    unfold get_product_details_body. unfold bind at 1. cbn [logm].
    assert (Htruthy : negb (truthy (VStr u)) = false).
    { simpl. destruct (String.eqb_spec u ""); [contradiction | reflexivity]. }
    rewrite Htruthy.
    unfold with_driver, pool_get_driver. cbn [pool add_log].
    destruct (DriverPool.get_driver (edge E) (pool s)) as [o p] eqn:Hget.
    simpl in Hfirst, Hsecond. subst o.
    unfold try_finally, try_except. unfold bind at 1. cbn [logm].
    unfold bind at 1. unfold driver_get.
    assert (Hvisits : forall s', visits s' = visits s ->
              web E u (visits (add_log INFO "Loading URL in WebDriver" s'))
              = web E u (visits s)).
    { intros s' Hs'. cbn [visits add_log]. rewrite Hs'. reflexivity. }
    rewrite Hvisits by (destruct (Nat.ltb _ _); reflexivity).
    rewrite Hload. unfold bind at 1. rewrite Hbody. cbn [check ret]. rewrite Hname.
    unfold bind at 1. rewrite extract_price_result, Hprice, Hpos.
    unfold bind at 1. rewrite get_available_sizes_once.
    unfold get_available_sizes_body, with_driver, pool_get_driver.
    match goal with
    | |- context [DriverPool.get_driver (edge E) (pool ?st)] =>
        replace (pool st) with p by (destruct (Nat.ltb _ _); reflexivity)
    end.
    destruct (DriverPool.get_driver (edge E) p) as [o2 p2] eqn:Hget2.
    simpl in Hsecond. subst o2.
    assert (Hp2 : p2 = p).
    { unfold DriverPool.get_driver in Hget2.
      destruct (DriverPool.drivers p); [|discriminate].
      destruct (_ <? _); [destruct (edge E); discriminate|].
      inversion Hget2. reflexivity. }
    subst p2. eexists. split; reflexivity. }
  destruct Hrun as (s' & -> & Hpool). split; [reflexivity | exact Hpool].
Qed.

Lemma scrape_needs_two_sessions_witness :
  fst (get_product_details (Examples.shop "80 TL" ["M"]) (VStr Examples.shirt_url)
         (set_pool (DriverPool.init 1) (init (Examples.store [])))) = Hang
  /\ pool (snd (get_product_details (Examples.shop "80 TL" ["M"]) (VStr Examples.shirt_url)
                  (set_pool (DriverPool.init 1) (init (Examples.store [])))))
     = snd (DriverPool.get_driver None (DriverPool.init 1)).
Proof.
  apply (scrape_needs_two_sessions (Examples.shop "80 TL" ["M"]) Examples.shirt_url
           (set_pool (DriverPool.init 1) (init (Examples.store []))) 0%nat
           "S"%char "hirt" (Py.Fin 80)); try reflexivity.
  discriminate.
Defined.

End SessionClaims.

(** ** The sizes of a product *)

Section SizeFacts.

Import ProductTracker.

Variable E : env.

Lemma returns_bind_with {A B} (m : M A) (k : A -> M B) (P : A -> Prop) (Q : B -> Prop) :
  returns m P -> (forall a, P a -> returns (k a) Q) -> returns (bind m k) Q.
Proof.
  intros Hm Hk s b s'. unfold bind. specialize (Hm s).
  destruct (m s) as [[a|e|] s1]; [|discriminate..].
  apply Hk. eapply Hm. reflexivity.
Qed.






End SizeFacts.

Section SizeClaims.

Import ProductTracker.





End SizeClaims.

(** ** The store scrapers *)

Section ScraperFacts.

Import ProductTracker.

Lemma rstrip_keeps_head (c : ascii) (s : string) :
  Py.isspace c = false -> Py.rstrip (String c s) = String c (Py.rstrip s).
Proof.
  intros Hc. cbn [Py.rstrip]. rewrite Hc. destruct (Py.rstrip s); reflexivity.
Qed.






End ScraperFacts.

Section ScraperClaims.

Import ProductTracker.


End ScraperClaims.

(** ** The delete button *)

Section CallbackFacts.

Import BotCallbacks.

Lemma uint_value_acc (l : Decimal.uint) (acc : positive) :
  uint_value l (Z.pos acc) = Z.pos (Pos.of_uint_acc l acc).
Proof.
  revert acc. induction l; intros acc; simpl; try reflexivity;
    match goal with
    | |- uint_value _ ?z = _ =>
        match goal with
        | |- _ = Z.pos (Pos.of_uint_acc _ ?p) =>
            replace z with (Z.pos p) by lia
        end
    end; apply IHl.
Qed.

Lemma uint_value_of_uint (l : Decimal.uint) : uint_value l 0 = Z.of_N (Pos.of_uint l).
Proof.
  induction l; simpl; try reflexivity; try exact IHl; apply (uint_value_acc l).
Qed.

Lemma digits_more_uint (u : Decimal.uint) (acc : Z) (cnt : nat) :
  exists cnt',
    Py.digits_more acc cnt (list_ascii_of_string (NilEmpty.string_of_uint u))
    = (uint_value u acc, cnt', []).
Proof.
  revert acc cnt. induction u; intros acc cnt; simpl;
    try (eexists; reflexivity); apply IHu.
Qed.

Lemma digitpart_uint (u : Decimal.uint) :
  u <> Nil ->
  exists cnt,
    Py.digitpart 0 (list_ascii_of_string (NilEmpty.string_of_uint u))
    = Some (uint_value u 0, cnt, []).
Proof.
  intros Hu. destruct u; [contradiction|..]; simpl;
    match goal with
    | |- exists _, Some (Py.digits_more ?a ?c (list_ascii_of_string (NilEmpty.string_of_uint ?l))) = _ =>
        destruct (digits_more_uint l a c) as [cnt' ->]; exists cnt'; reflexivity
    end.
Qed.

Lemma plain_uint (u : Decimal.uint) : plain (NilEmpty.string_of_uint u).
Proof.
  induction u; intros c Hc; simpl in Hc; try contradiction;
    (destruct Hc as [<-|Hc]; [split; [reflexivity | discriminate] | exact (IHu c Hc)]).
Qed.

Lemma plain_str_of_int (n : Z) : plain (str_of_int n).
Proof.
  assert (Hu : forall u, plain (NilZero.string_of_uint u)).
  { intros u. destruct u; try apply (plain_uint (_ _)).
    intros c [<-|[]]. split; [reflexivity | discriminate]. }
  unfold str_of_int. destruct n as [|p|p]; simpl.
  - intros c [<-|[]]. split; [reflexivity | discriminate].
  - apply Hu.
  - intros c [<-|Hc]; [split; [reflexivity | discriminate] | exact (Hu _ c Hc)].
Qed.

Lemma rstrip_plain (s : string) :
  (forall c, In c (list_ascii_of_string s) -> Py.isspace c = false) -> Py.rstrip s = s.
Proof.
  induction s as [|c s IH]; intros Hs; [reflexivity|].
  rewrite rstrip_keeps_head by (apply Hs; left; reflexivity).
  rewrite IH; [reflexivity|]. intros c' Hc'. apply Hs. right. exact Hc'.
Qed.

Lemma strip_plain (s : string) : plain s -> Py.strip s = s.
Proof.
  intros Hs. unfold Py.strip.
  assert (Hl : Py.lstrip s = s).
  { destruct s as [|c s]; [reflexivity|]. cbn [Py.lstrip].
    rewrite (proj1 (Hs c (or_introl eq_refl))). reflexivity. }
  rewrite Hl. apply rstrip_plain. intros c Hc. apply Hs. exact Hc.
Qed.

Lemma split_plain (s : string) : plain s -> split_on "_" s = [s].
Proof.
  induction s as [|c s IH]; intros Hs; [reflexivity|].
  cbn [split_on].
  destruct (Ascii.eqb_spec c "_") as [->|_].
  - exfalso. apply (proj2 (Hs "_"%char (or_introl eq_refl))). reflexivity.
  - rewrite IH; [reflexivity|]. intros c' Hc'. apply Hs. right. exact Hc'.
Qed.

Lemma int_of_uint_string (p : positive) :
  int_of_str (NilEmpty.string_of_uint (Pos.to_uint p)) = Some (Z.pos p)
  /\ int_of_str (String "-" (NilEmpty.string_of_uint (Pos.to_uint p))) = Some (Z.neg p).
Proof.
  pose proof (DecimalPos.Unsigned.to_uint_nonnil p) as Hnil.
  pose proof (DecimalPos.Unsigned.of_to p) as Hval.
  destruct (digitpart_uint (Pos.to_uint p) Hnil) as [cnt Hdigits].
  rewrite uint_value_of_uint, Hval in Hdigits. simpl Z.of_N in Hdigits.
  split.
  - unfold int_of_str. rewrite (strip_plain _ (plain_uint _)).
    destruct (Pos.to_uint p) as [|u|u|u|u|u|u|u|u|u|u]; [contradiction|..];
      cbn [NilEmpty.string_of_uint list_ascii_of_string Ascii.eqb Bool.eqb] in *;
      rewrite Hdigits; reflexivity.
  - unfold int_of_str. rewrite strip_plain.
    + cbn [list_ascii_of_string Ascii.eqb Bool.eqb]. rewrite Hdigits. reflexivity.
    + intros c [<-|Hc]; [split; [reflexivity | discriminate] | exact (plain_uint _ c Hc)].
Qed.

(** [int] reads back what [str] wrote. *)
Lemma int_of_str_of_int (n : Z) : int_of_str (str_of_int n) = Some n.
Proof.
  unfold str_of_int. destruct n as [|p|p]; [reflexivity|..]; simpl Z.to_int;
    unfold NilZero.string_of_int, NilZero.string_of_uint;
    pose proof (DecimalPos.Unsigned.to_uint_nonnil p) as Hnil;
    destruct (int_of_uint_string p) as [Hpos Hneg];
    destruct (Pos.to_uint p); try contradiction; assumption.
Qed.

End CallbackFacts.

Section CallbackClaims.

Import BotCallbacks.

(** X22.  The delete button carries the id of its product: a press of the
    button that [list_products] made for the product [product_id] does
    what [delete_product] does for the user who pressed and that id,
    whatever the id; so the button of another user's product is answered
    with "not stopped" and deletes nothing. *)
Theorem delete_button_round_trip (from_user product_id : Z) (d : Database.t) :
  int_of_str (str_of_int product_id) = Some product_id
  /\ split_on "_" (callback_data product_id) = ["delete"; str_of_int product_id]
  /\ delete_callback from_user (callback_data product_id) d
     = (if fst (Database.delete_product from_user product_id d) then Stopped else NotStopped,
        snd (Database.delete_product from_user product_id d)).
Proof.
  assert (Hsplit : split_on "_" (callback_data product_id) = ["delete"; str_of_int product_id]).
  { unfold callback_data.
    change (split_on "_" ("delete_" ++ str_of_int product_id))
      with ("delete" :: split_on "_" (str_of_int product_id)).
    rewrite (split_plain _ (plain_str_of_int product_id)). reflexivity. }
  split; [apply int_of_str_of_int|]. split; [exact Hsplit|].
  unfold delete_callback. rewrite Hsplit. cbn [nth_error].
  rewrite int_of_str_of_int.
  destruct (Database.delete_product from_user product_id d); reflexivity.
Qed.

End CallbackClaims.

(** ** The tracking loop *)

Section LoopFacts.

Import ProductTracker.

Variable E : env.

Lemma check_product_blocked (product : gmap string value) (url : value) (s : state) :
  getitem product "url" = inr url ->
  fst (get_product_details E url s) = Hang ->
  _check_product E product s = (Hang, snd (get_product_details E url s)).
Proof.
  intros Hurl Hhang. unfold _check_product. rewrite Hurl. cbn [bind lift ret].
  unfold bind at 1.
  destruct (get_product_details E url s) as [found s1]. simpl in *. subst found.
  reflexivity.
Qed.

(** What a check of a row of the table can come to. *)
Lemma check_product_row (row : Database.tracked_product) (s : state) :
  db (snd (_check_product E (Database.product_dict row) s)) = db s
  /\ is_running (snd (_check_product E (Database.product_dict row) s)) = is_running s
  /\ (fst (_check_product E (Database.product_dict row) s) = Ret tt
      \/ fst (_check_product E (Database.product_dict row) s) = Raise (KeyError "is_available")
      \/ fst (_check_product E (Database.product_dict row) s) = Hang).
Proof.
  destruct (product_keys row) as (_ & _ & Hurl & _).
  pose proof (keeps_get_product_details E (VStr (Database.url row)) s) as Hkeep.
  destruct (fst (get_product_details E (VStr (Database.url row)) s)) as [[details|]|e|] eqn:Hrun.
  - destruct (check_product_after_scrape E row s details Hrun)
      as (name & price & sizes & checked & _ & _ & ->). simpl.
    destruct (add_sents_stored
                (List.map (threshold_notification row price)
                   (thresholds_reached (Database.id row) price (db s)))
                (snd (get_product_details E (VStr (Database.url row)) s)))
      as (Hdb & _ & Hrunning & _).
    injection Hkeep as Hdb' _ Hrunning'.
    rewrite Hdb, Hrunning, Hdb', Hrunning'. repeat split. right. left. reflexivity.
  - rewrite (check_product_after_failure E _ _ s Hurl Hrun). simpl.
    injection Hkeep as Hdb' _ Hrunning'. repeat split; try assumption. left. reflexivity.
  - exfalso. rewrite get_product_details_once in Hrun.
    exact (get_product_details_body_never_raises E _ s e Hrun).
  - rewrite (check_product_blocked _ _ s Hurl Hrun). simpl.
    injection Hkeep as Hdb' _ Hrunning'.
    repeat split; try assumption. right. right. reflexivity.
Qed.

Lemma check_products_cons (product : gmap string value)
    (rest : list (gmap string value)) (s : state) :
  check_products E (product :: rest) s =
  if is_running s then
    match _check_product E product s with
    | (Ret _, s1) => check_products E rest s1
    | (Raise e, s1) => (Raise e, s1)
    | (Hang, s1) => (Hang, s1)
    end
  else (Ret tt, s).
Proof.
  cbn [check_products]. unfold bind. destruct (is_running s); reflexivity.
Qed.

Lemma check_products_rows (rows : list Database.tracked_product) (s : state) :
  db (snd (check_products E (List.map Database.product_dict rows) s)) = db s
  /\ is_running (snd (check_products E (List.map Database.product_dict rows) s))
     = is_running s
  /\ (fst (check_products E (List.map Database.product_dict rows) s) = Ret tt
      \/ fst (check_products E (List.map Database.product_dict rows) s)
         = Raise (KeyError "is_available")
      \/ fst (check_products E (List.map Database.product_dict rows) s) = Hang).
Proof.
  revert s. induction rows as [|row rows IH]; intros s.
  - simpl. repeat split. left. reflexivity.
  - cbn [List.map]. rewrite check_products_cons.
    destruct (is_running s) eqn:Hrunning.
    2:{ simpl. repeat split; [exact Hrunning | left; reflexivity]. }
    destruct (check_product_row row s) as (Hdb & Hrun & Hout).
    destruct (_check_product E (Database.product_dict row) s) as [o s1].
    simpl in Hdb, Hrun, Hout.
    destruct Hout as [->|[->| ->]].
    + destruct (IH s1) as (Hdb2 & Hrun2 & Hout2).
      rewrite Hdb2, Hrun2, Hdb, Hrun. split; [reflexivity|]. split; [exact Hrunning|].
      exact Hout2.
    + simpl. rewrite Hdb, Hrun. split; [reflexivity|]. split; [exact Hrunning|].
      right. left. reflexivity.
    + simpl. rewrite Hdb, Hrun. split; [reflexivity|]. split; [exact Hrunning|].
      right. right. reflexivity.
Qed.

Lemma tracking_round_eq (s : state) :
  tracking_round E s =
  match check_products E (Database.get_all_tracked_products (db s)) s with
  | (Ret _, s1) => (Ret true, add_sleep 900 s1)
  | (Raise _, s1) =>
      if is_running s1
      then (Ret true, add_sleep 60 (add_log ERROR "Error in tracking loop" s1))
      else (Ret false, add_log ERROR "Error in tracking loop" s1)
  | (Hang, s1) => (Hang, s1)
  end.
Proof.
  unfold tracking_round, try_except, bind. simpl.
  destruct (check_products E (Database.get_all_tracked_products (db s)) s) as [[[]|e|] s1];
    try reflexivity.
  simpl. destruct (is_running s1); reflexivity.
Qed.

Lemma add_sents_visits (l : list (value * message)) (s : state) :
  visits (add_sents l s) = visits s /\ slept (add_sents l s) = slept s
  /\ pool (add_sents l s) = pool s.
Proof.
  revert s. induction l as [|n l IH]; intros s; [repeat split|].
  destruct (IH (add_sent n s)) as (H1 & H2 & H3).
  unfold add_sents in *. simpl. rewrite H1, H2, H3. repeat split.
Qed.

End LoopFacts.

Section LoopClaims.

Import ProductTracker.

(** X16.  A round of the tracking loop never raises and, while
    [is_running] holds, never ends the loop: unless it blocks on the pool
    it sleeps 900 seconds after a pass that ran to its end, or logs the
    exception that stopped the pass and sleeps 60 seconds.  Either way it
    leaves the store as it found it: no check of a product gets as far as
    the update of the price. *)
Theorem tracking_round_goes_on (E : env) (s : state) :
  is_running s = true ->
  (forall e, fst (tracking_round E s) <> Raise e)
  /\ db (snd (tracking_round E s)) = db s
  /\ (fst (tracking_round E s) = Hang
      \/ fst (tracking_round E s) = Ret true
         /\ exists s1,
              snd (tracking_round E s) = add_sleep 900 s1
              \/ snd (tracking_round E s)
                 = add_sleep 60 (add_log ERROR "Error in tracking loop" s1)).
Proof.
  intros Hrunning. rewrite tracking_round_eq.
  unfold Database.get_all_tracked_products.
  destruct (check_products_rows E (Database.tracked_products (db s)) s)
    as (Hdb & Hrun & Hout).
  destruct (check_products E (List.map Database.product_dict
                                (Database.tracked_products (db s))) s) as [o s1].
  simpl in Hdb, Hrun, Hout. rewrite Hrunning in Hrun.
  destruct Hout as [->|[->| ->]]; simpl; rewrite ?Hrun; simpl.
  - split; [discriminate|]. split; [exact Hdb|]. right. split; [reflexivity|].
    exists s1. left. reflexivity.
  - split; [discriminate|]. split; [exact Hdb|]. right. split; [reflexivity|].
    exists s1. right. reflexivity.
  - split; [discriminate|]. split; [exact Hdb|]. left. reflexivity.
Qed.

Lemma tracking_round_goes_on_witness :
  fst (tracking_round Examples.flaky_shop (init (Examples.store []))) = Ret true
  /\ slept (snd (tracking_round Examples.flaky_shop (init (Examples.store [])))) = [900]
  /\ slept (snd (tracking_round (Examples.shop "80 TL" ["M"]) (init (Examples.store []))))
     = [1; 60]
  /\ db (snd (tracking_round (Examples.shop "80 TL" ["M"]) (init (Examples.store []))))
     = db (init (Examples.store [])).
Proof.
  split; [vm_compute; reflexivity|]. split; [vm_compute; reflexivity|].
  split; [vm_compute; reflexivity|].
  apply (tracking_round_goes_on (Examples.shop "80 TL" ["M"]) (init (Examples.store []))).
  reflexivity.
Defined.

(** X17.  When the scrape of the first product of the table succeeds, the
    pass ends there: the check of that product ends in an exception, which
    the loop logs before it sleeps 60 seconds; no page of a later product
    is visited in this round, and the store is as it was. *)
Theorem successful_scrape_ends_the_pass (E : env) (row : Database.tracked_product)
    (rest : list Database.tracked_product) (s : state) (details : gmap string value) :
  is_running s = true ->
  Database.tracked_products (db s) = row :: rest ->
  fst (get_product_details E (VStr (Database.url row)) s) = Ret (Some details) ->
  fst (tracking_round E s) = Ret true
  /\ visits (snd (tracking_round E s))
     = visits (snd (get_product_details E (VStr (Database.url row)) s))
  /\ slept (snd (tracking_round E s))
     = (slept (snd (get_product_details E (VStr (Database.url row)) s)) ++ [60])%list
  /\ log (snd (tracking_round E s))
     = (log (snd (get_product_details E (VStr (Database.url row)) s))
        ++ [(ERROR, "Error in tracking loop")])%list
  /\ db (snd (tracking_round E s)) = db s.
Proof.
  intros Hrunning Hrows Hfound.
  destruct (check_product_after_scrape E row s details Hfound)
    as (name & price & sizes & checked & -> & _ & Hrun).
  rewrite tracking_round_eq. unfold Database.get_all_tracked_products.
  rewrite Hrows. cbn [List.map]. rewrite check_products_cons, Hrunning, Hrun.
  destruct (add_sents_stored
              (List.map (threshold_notification row price)
                 (thresholds_reached (Database.id row) price (db s)))
              (snd (get_product_details E (VStr (Database.url row)) s)))
    as (Hdb & _ & Hr & Hlog).
  destruct (add_sents_visits
              (List.map (threshold_notification row price)
                 (thresholds_reached (Database.id row) price (db s)))
              (snd (get_product_details E (VStr (Database.url row)) s)))
    as (Hvisits & Hslept & _).
  rewrite Hr.
  pose proof (keeps_get_product_details E (VStr (Database.url row)) s) as Hkeep.
  injection Hkeep as Hdb' _ Hr'. rewrite Hr', Hrunning. simpl.
  rewrite Hvisits, Hslept, Hlog, Hdb, Hdb'. repeat split.
Qed.

Lemma successful_scrape_ends_the_pass_witness :
  fst (tracking_round (Examples.shop "80 TL" ["M"]) (init (Examples.store []))) = Ret true
  /\ visits (snd (tracking_round (Examples.shop "80 TL" ["M"]) (init (Examples.store []))))
     = visits (snd (get_product_details (Examples.shop "80 TL" ["M"])
                      (VStr (Database.url Examples.shirt)) (init (Examples.store []))))
  /\ slept (snd (tracking_round (Examples.shop "80 TL" ["M"]) (init (Examples.store []))))
     = (slept (snd (get_product_details (Examples.shop "80 TL" ["M"])
                      (VStr (Database.url Examples.shirt)) (init (Examples.store []))))
        ++ [60])%list
  /\ log (snd (tracking_round (Examples.shop "80 TL" ["M"]) (init (Examples.store []))))
     = (log (snd (get_product_details (Examples.shop "80 TL" ["M"])
                    (VStr (Database.url Examples.shirt)) (init (Examples.store []))))
        ++ [(ERROR, "Error in tracking loop")])%list
  /\ db (snd (tracking_round (Examples.shop "80 TL" ["M"]) (init (Examples.store []))))
     = db (init (Examples.store [])).
Proof.
  apply (successful_scrape_ends_the_pass (Examples.shop "80 TL" ["M"]) Examples.shirt []
           (init (Examples.store [])) (make_details "Shirt" (Py.Fin 80) ["M"] 1)).
  - reflexivity.
  - reflexivity.
  - vm_compute. reflexivity.
Defined.


End LoopClaims.

(** ** Reading the text of a price *)

Section PriceTextFacts.

Import ProductTracker PriceText.


Lemma all_chars_impl (p q : ascii -> bool) (s : string) :
  (forall c, p c = true -> q c = true) -> all_chars p s = true -> all_chars q s = true.
Proof.
  intros Hpq. induction s as [|c s IH]; [reflexivity|].
  cbn [all_chars]. rewrite !andb_true_iff. intros [Hc Hs]. split; auto.
Qed.

(** *** [strip] *)






(** *** [replace] *)





(** *** Digits *)

Lemma digit_cases (d : N) :
  (d <? 10)%N = true ->
  d = 0%N \/ d = 1%N \/ d = 2%N \/ d = 3%N \/ d = 4%N \/ d = 5%N \/ d = 6%N
  \/ d = 7%N \/ d = 8%N \/ d = 9%N.
Proof. intros H. apply N.ltb_lt in H. lia. Qed.

Lemma digit_of_digit (d : N) :
  (d <? 10)%N = true ->
  Py.digit_of (digit d) = Some (Z.of_N d) /\ plain_char (digit d) = true.
Proof.
  intros H.
  destruct (digit_cases d H) as [->|[->|[->|[->|[->|[->|[->|[->|[->| ->]]]]]]]]];
    split; reflexivity.
Qed.

Lemma are_digits_cons (d : N) (ds : list N) :
  are_digits (d :: ds) = true <-> (d <? 10)%N = true /\ are_digits ds = true.
Proof. unfold are_digits. cbn [forallb]. apply andb_true_iff. Qed.

Lemma are_digits_app (a b : list N) :
  are_digits (a ++ b) = true <-> are_digits a = true /\ are_digits b = true.
Proof. unfold are_digits. rewrite forallb_app. apply andb_true_iff. Qed.


Lemma digits_plain (ds : list N) :
  are_digits ds = true -> all_chars plain_char (digits ds) = true.
Proof.
  induction ds as [|d ds IH]; [reflexivity|].
  rewrite are_digits_cons. intros [Hd Hds].
  cbn [digits all_chars]. rewrite (proj2 (digit_of_digit d Hd)), (IH Hds). reflexivity.
Qed.

Lemma value_from_app (acc : Z) (a b : list N) :
  value_from acc (a ++ b) = value_from (value_from acc a) b.
Proof. unfold value_from. apply fold_left_app. Qed.



(** *** [float] on a decimal numeral *)









(** *** The text of a price through [strip], [replace] and [float] *)



(** The characters that are neither blank nor one of [a]: the digits. *)
Lemma plain_not (c : ascii) :
  plain_char c = true ->
  negb (Ascii.eqb "T" c) = true /\ negb (Ascii.eqb "." c) = true
  /\ negb (Ascii.eqb "," c) = true.
Proof. unfold plain_char. rewrite !andb_true_iff. tauto. Qed.



Lemma digits_without_T (ds : list N) :
  are_digits ds = true -> all_chars (fun c => negb (Ascii.eqb "T" c)) (digits ds) = true.
Proof.
  intros H. apply (all_chars_impl plain_char); [|exact (digits_plain ds H)].
  intros c Hc. apply (plain_not c Hc).
Qed.



Lemma are_digits_concat (g : list N) (more : list (list N)) :
  are_digits (concat (g :: more)) = true ->
  are_digits g = true /\ are_digits (concat more) = true.
Proof. cbn [concat]. apply are_digits_app. Qed.










End PriceTextFacts.

Section PriceClaims.

Import ProductTracker PriceText Examples.



(** " 12.999,90 TL " is 12999.9. *)
Example price_text_sample :
  price_text " " [1; 2]%N [[9; 9; 9]%N] [9; 0]%N (Some " ") " " = " 12.999,90 TL "
  /\ (amount_value [1; 2]%N [[9; 9; 9]%N] [9; 0]%N == 12999.9)%Q
  /\ parse_price " 12.999,90 TL " = Some (Py.Fin (129999 # 10)).
Proof. split; [reflexivity|]. split; [reflexivity|]. vm_compute. reflexivity. Qed.

End PriceClaims.
